(** * HOD population of a distributed halo catalog

    A shallow embedding of [nbodykit/source/particle/hod.py]: the
    [remove_object_dtypes] helper, the [HODBase] constructor, its
    [_makesource] and [repopulate] methods and the [Position] and
    [Velocity] columns, together with the gather/scatter collectives
    they are built on.

    The program is SPMD: every rank runs the same method on its own
    shard.  The embedding takes the global view: one record holds what
    is replicated on every rank, what exists on the root only, and one
    entry per rank for what is local.  Rank ids are list positions. *)

From stdpp Require Import base strings list gmap fin_maps pretty.
From Stdlib Require Import ZArith Lia.
From Stdlib Require QArith_base.

Set Default Proof Using "Type".

(** ** Python values *)

(** Floating point numbers are only stored and forwarded by this code,
    never computed with; a rational stands for each. *)
Abbreviation float := QArith_base.Q.

(** Values held by [attrs], by the cosmology and by [param_dict]. *)
#[warnings="-register-all"]
Inductive pyval :=
  | PyNone
  | PyInt (z : Z)
  | PyFloat (q : float)
  | PyStr (s : string)
  | PyList (l : list pyval).

(** Python objects found in the cells of an object ('O') column. *)
Inductive pyobject :=
  | ObjNone
  | ObjBool (b : bool)
  | ObjInt (z : Z)
  | ObjStr (s : string).

(** Python's [str()] on those objects. *)
Definition py_str (o : pyobject) : string :=
  match o with
  | ObjNone => "None"
  | ObjBool true => "True"
  | ObjBool false => "False"
  | ObjInt z => pretty z
  | ObjStr s => s
  end.

(** The spec's error taxonomy.  The Python code raises [TypeError] for
    the first and [ValueError] for the others that it raises itself;
    numpy raises [ValueError] for a missing field and [TypeError] for a
    function applied to a dtype it is not defined on, and Python raises
    [AttributeError] for an attribute that does not exist. *)
Inductive exn :=
  | TypeError
  | MissingParameterError (param : string)
  | UnknownParameterError (name : string) (valid : list string)
  | EmptyResultError
  | MissingColumnError (col : string)
  | TransformError (msg : string)
  | AttributeError (name : string).

Inductive result (A : Type) :=
  | Ok (a : A)
  | Err (e : exn).
Arguments Ok {A} a.
Arguments Err {A} e.

Definition bind {A B} (r : result A) (k : A -> result B) : result B :=
  match r with
  | Ok a => k a
  | Err e => Err e
  end.

Notation "x <-? r ; k" := (bind r (fun x => k))
  (at level 100, r at next level, right associativity,
   format "'[v' x  <-?  r ; '/' k ']'").

(** ** Dictionaries whose iteration order matters

    [param_dict] and the keyword arguments are iterated by the code, so
    they are association lists in insertion order with unique keys. *)
Section Dict.
Context {V : Type}.

Definition keys (d : list (string * V)) : list string := d.*1.

Fixpoint dict_get (d : list (string * V)) (k : string) : option V :=
  match d with
  | [] => None
  | (k', v) :: d' => if decide (k' = k) then Some v else dict_get d' k
  end.

Definition dict_in (k : string) (d : list (string * V)) : bool :=
  bool_decide (is_Some (dict_get d k)).

(** [d[k] = v]: an existing key keeps its position, a new key goes
    last. *)
Fixpoint dict_set (d : list (string * V)) (k : string) (v : V)
  : list (string * V) :=
  match d with
  | [] => [(k, v)]
  | (k', v') :: d' =>
      if decide (k' = k) then (k', v) :: d' else (k', v') :: dict_set d' k v
  end.
End Dict.

(** ** Tables and structured arrays *)

Inductive dtype :=
  | DInt
  | DFloat
  | DUnicode (width : nat)
  | DObject.

Global Instance dtype_eq_dec : EqDecision dtype.
Proof. solve_decision. Defined.

Inductive value :=
  | VInt (z : Z)
  | VFloat (q : float)
  | VText (s : string)
  | VObj (o : pyobject).

(** An astropy [Table] is column oriented: named columns in order, each
    with a dtype and its cells. *)
Record Column := mkColumn { col_dtype : dtype; col_data : list value }.

Abbreviation Table := (list (string * Column)).

Definition colnames (t : Table) : list string := t.*1.

Definition table_len (t : Table) : nat :=
  match t with
  | [] => 0
  | (_, c) :: _ => length (col_data c)
  end.

(** [data[col] = c] on a table. *)
Definition table_set (t : Table) (col : string) (c : Column) : Table :=
  dict_set t col c.

(** A numpy structured array is an array of records over a list of
    typed fields. *)
Record StructArray := mkArray {
  fields : list (string * dtype);
  records : list (list value)
}.

Definition array_len (a : StructArray) : nat := length (records a).

Definition cell (j : nat) (r : list value) : value := nth j r (VInt 0).

(** [Table.as_array()] *)
Definition as_array (t : Table) : StructArray :=
  {| fields := (λ nc, (nc.1, col_dtype nc.2)) <$> t;
     records := (λ i, (λ nc, cell i (col_data nc.2)) <$> t)
                  <$> seq 0 (table_len t) |}.

(** [Table(data=a, copy=True)] *)
Definition Table_of_array (a : StructArray) : Table :=
  imap (λ j nd, (nd.1, {| col_dtype := nd.2;
                          col_data := cell j <$> records a |}))
       (fields a).

(** ** [remove_object_dtypes] *)

Definition text_width (v : value) : nat :=
  match v with
  | VText s => String.length s
  | _ => 0
  end.

(** [c.astype('U')] on an object column: every cell becomes the text of
    its [str()], and the width of the new dtype is that of the longest
    text; numpy has no text dtype of width 0, a column without cells or
    with empty texts only gets width 1.  Cells of an object column are
    Python objects; numpy scalars do not occur in them, and are left as
    they are here. *)
Definition astype_U_cell (v : value) : value :=
  match v with
  | VObj o => VText (py_str o)
  | _ => v
  end.

Definition astype_U (c : Column) : Column :=
  let cells := astype_U_cell <$> col_data c in
  {| col_dtype := DUnicode (1 `max` max_list (text_width <$> cells));
     col_data := cells |}.

Definition remove_object_dtypes_step (data : Table) (col : string) : Table :=
  match dict_get data col with
  | Some c =>
      if decide (col_dtype c = DObject)
      then table_set data col (astype_U c)
      else data
  | None => data
  end.

Definition remove_object_dtypes (data : Table) : Table :=
  foldl remove_object_dtypes_step data (colnames data).

(** ** The collectives

    [GatherArray] and [ScatterArray] live in [nbodykit.utils]. *)
Section Collectives.
Context {A : Type}.

(** Modelled from the spec: the rows [GatherArray] of [nbodykit.utils]
    consolidates; the contributions are concatenated by increasing
    rank id and each keeps the order of its rows. *)
Definition gather_rows (locals : list (list A)) : list A := mjoin locals.

(** Modelled from the spec: the row count of rank [i] when [T] rows
    are scattered over [R] ranks, [base + 1] below the remainder and
    [base] from there on. *)
Definition shard_size (T R i : nat) : nat :=
  let base := T `div` R in
  let remainder := T `mod` R in
  if decide (i < remainder) then base + 1 else base.

Definition shard_sizes (T R : nat) : list nat := shard_size T R <$> seq 0 R.

(** Modelled from the spec: the rows [ScatterArray] of [nbodykit.utils]
    hands out; they are cut into contiguous blocks in their order, the
    first block for rank 0, the next for rank 1, and so on. *)
Definition scatter_rows (data : list A) (R : nat) : list (list A) :=
  reshape (shard_sizes (length data) R) data.
End Collectives.

(** Modelled from the spec: [GatherArray(data, comm, root=0)] of
    [nbodykit.utils] is missing; on the root it returns the
    consolidated array, the contributions of the ranks one after the
    other by increasing rank id, with the schema all of them share. *)
Definition GatherArray (root : StructArray) (others : list StructArray)
  : StructArray :=
  {| fields := fields root;
     records := gather_rows (records <$> root :: others) |}.

(** Modelled from the spec: [ScatterArray(data, comm)] of
    [nbodykit.utils] is missing; every one of the [R] ranks receives a
    shard with the schema of the source, rank [i] the [i]-th block of
    its rows. *)
Definition ScatterArray (data : StructArray) (R : nat) : list StructArray :=
  mkArray (fields data) <$> scatter_rows (records data) R.

(** ** The external model (halotools)

    The model holds its parameter store, the transform it runs and,
    once [populate_mock] has run, the mock: the halo table the mock was
    built from and the galaxy table of the last population. *)
Record Mock := mkMock {
  mock_halo_table : Table;
  galaxy_table : option Table
}.

Record Model := mkModel {
  param_dict : list (string * pyval);
  transform :
    Table -> list (string * pyval) -> string -> nat -> pyval -> result Table;
  mock : option Mock
}.

(** [model.populate_mock(halocat, halo_mass_column_key,
    Num_ptcl_requirement, seed)]: builds the mock from the halo table
    and populates it. *)
Definition populate_mock (m : Model) (halo_table : Table)
    (halo_mass_column_key : string) (Num_ptcl_requirement : nat)
    (seed : pyval) : result Model :=
  g <-? transform m halo_table (param_dict m) halo_mass_column_key
          Num_ptcl_requirement seed;
  Ok {| param_dict := param_dict m; transform := transform m;
        mock := Some {| mock_halo_table := halo_table;
                        galaxy_table := Some g |} |}.

(** [model.mock.populate(Num_ptcl_requirement, halo_mass_column_key,
    seed)]: populates again from the halo table the mock holds. *)
Definition mock_populate (m : Model) (Num_ptcl_requirement : nat)
    (halo_mass_column_key : string) (seed : pyval) : result Model :=
  match mock m with
  | None => Err (AttributeError "mock")
  | Some mk =>
      g <-? transform m (mock_halo_table mk) (param_dict m)
              halo_mass_column_key Num_ptcl_requirement seed;
      Ok {| param_dict := param_dict m; transform := transform m;
            mock := Some {| mock_halo_table := mock_halo_table mk;
                            galaxy_table := Some g |} |}
  end.

(** [model_defaults.get_halo_mass_key] and [get_halo_boundary_key] *)
Definition get_halo_mass_key (mdef : string) : string := "halo_m" +:+ mdef.
Definition get_halo_boundary_key (mdef : string) : string := "halo_r" +:+ mdef.

(** ** The catalog *)

(** The halo catalog handed to the constructor, in the global view: the
    table of the root and the tables of the ranks after it. *)
Record UserSuppliedHaloCatalog := mkHalos {
  Lbox : pyval;
  halo_table : Table;
  halo_tables_others : list Table
}.

(** What [isinstance(halos, UserSuppliedHaloCatalog)] tells apart. *)
Inductive halos_arg :=
  | IsHaloCatalog (h : UserSuppliedHaloCatalog)
  | OtherObject.

Definition comm_size (h : UserSuppliedHaloCatalog) : nat :=
  S (length (halo_tables_others h)).

Record HODBase := mkHODBase {
  _halos : UserSuppliedHaloCatalog;
  cosmo : list (string * pyval);
  attrs : gmap string pyval;
  mass : string;
  radius : string;
  _model : Model;
  _source : list StructArray;
  use_cache : bool;
  generation : nat
}.

(** The calls a population cycle makes to its collaborators, in the
    order they are made. *)
Inductive Event :=
  | EvGather
  | EvNormalize (t : Table)
  | EvTransform (halos : Table)
  | EvScatter.

(** What outlives an instance: the module global of halotools'
    [model_defaults] in the root's process, and the call log. *)
Record World := mkWorld {
  default_haloprop_list_inherited_by_mock : list string;
  events : list Event
}.

Record Process := mkProcess { world : World; self : HODBase }.

(** *** A state and error monad for the methods *)
Definition prog (S A : Type) : Type := S -> S * result A.

Definition ret {S A} (a : A) : prog S A := fun s => (s, Ok a).
Definition raise {S A} (e : exn) : prog S A := fun s => (s, Err e).
Definition lift {S A} (r : result A) : prog S A := fun s => (s, r).
Definition gets {S A} (f : S -> A) : prog S A := fun s => (s, Ok (f s)).
Definition modify {S} (f : S -> S) : prog S unit := fun s => (f s, Ok tt).

Definition seq_prog {S A B} (c : prog S A) (k : A -> prog S B) : prog S B :=
  fun s =>
    match c s with
    | (s', Ok a) => k a s'
    | (s', Err e) => (s', Err e)
    end.

Notation "'let*' x := c 'in' k" := (seq_prog c (fun x => k))
  (at level 10, x name, c at level 100, k at level 200).
Notation "c ;; k" := (seq_prog c (fun _ => k))
  (at level 100, k at level 200, right associativity).

Definition log (e : Event) : prog Process unit :=
  modify (fun p =>
    {| world := {| default_haloprop_list_inherited_by_mock :=
                     default_haloprop_list_inherited_by_mock (world p);
                   events := events (world p) ++ [e] |};
       self := self p |}).

Definition update_self (f : HODBase -> HODBase) : prog Process unit :=
  modify (fun p => {| world := world p; self := f (self p) |}).

Definition set_model (m : Model) (o : HODBase) : HODBase :=
  {| _halos := _halos o; cosmo := cosmo o; attrs := attrs o; mass := mass o;
     radius := radius o; _model := m; _source := _source o;
     use_cache := use_cache o; generation := generation o |}.

Definition set_attr (k : string) (v : pyval) (o : HODBase) : HODBase :=
  {| _halos := _halos o; cosmo := cosmo o; attrs := <[k := v]> (attrs o);
     mass := mass o; radius := radius o; _model := _model o;
     _source := _source o; use_cache := use_cache o;
     generation := generation o |}.

Definition set_halo_table (t : Table) (o : HODBase) : HODBase :=
  {| _halos := {| Lbox := Lbox (_halos o); halo_table := t;
                  halo_tables_others := halo_tables_others (_halos o) |};
     cosmo := cosmo o; attrs := attrs o; mass := mass o; radius := radius o;
     _model := _model o; _source := _source o; use_cache := use_cache o;
     generation := generation o |}.

Definition set_param_dict (d : list (string * pyval)) (m : Model) : Model :=
  {| param_dict := d; transform := transform m; mock := mock m |}.

Definition get_attr (o : HODBase) (k : string) : pyval :=
  default PyNone (attrs o !! k).

(** Modelled from the spec: [Array.__init__] of
    [nbodykit.source.particle.from_numpy] is missing; it installs the
    new shards as the current ones, the previous ones being dropped,
    and the generation of the catalog goes up by one. *)
Definition Array_init (data : list StructArray) (cache : bool) (o : HODBase)
  : HODBase :=
  {| _halos := _halos o; cosmo := cosmo o; attrs := attrs o; mass := mass o;
     radius := radius o; _model := _model o; _source := data;
     use_cache := cache; generation := S (generation o) |}.

(** Modelled from the spec: [csize], the collective size of the
    catalog, is the sum of the row counts of the shards of all ranks. *)
Definition csize (o : HODBase) : nat := sum_list (array_len <$> _source o).

(** ** [HODBase] *)

(** [data[name]] on a structured array. *)
Definition field (a : StructArray) (name : string) : result (list value) :=
  match list_find (fun nd => nd.1 = name) (fields a) with
  | Some (j, _) => Ok (cell j <$> records a)
  | None => Err (MissingColumnError name)
  end.

(** [data[name]] with its dtype. *)
Definition column_of (a : StructArray) (name : string) : result Column :=
  match list_find (fun nd => nd.1 = name) (fields a) with
  | Some (j, nd) =>
      Ok {| col_dtype := nd.2; col_data := cell j <$> records a |}
  | None => Err (MissingColumnError name)
  end.

(** Python's [v == s] on one cell. *)
Definition cell_is (s : string) (v : value) : bool :=
  match v with
  | VText s' | VObj (ObjStr s') => bool_decide (s' = s)
  | _ => false
  end.

(** [(c == s).sum()]: a column of texts or of objects is compared cell
    by cell, and the cells equal to [s] are counted.  A column of
    numbers cannot be compared with a string: the numpy this code was
    written for (before 1.25) warns that the elementwise comparison
    failed and answers the scalar [False], which has no [sum]. *)
Definition count_equal (c : Column) (s : string) : result nat :=
  match col_dtype c with
  | DUnicode _ | DObject =>
      Ok (length (filter (fun v => cell_is s v) (col_data c)))
  | DInt | DFloat => Err (AttributeError "sum")
  end.

(** [numpy.log10(c)] is defined on the number dtypes; on a column of
    texts or of objects numpy raises [TypeError].  The logarithms, their
    mean and their deviation go to the logger only. *)
Definition numpy_log10 (c : Column) : result unit :=
  match col_dtype c with
  | DInt | DFloat => Ok tt
  | DUnicode _ | DObject => Err TypeError
  end.

(** [_log_populated_stats]: the statistics themselves go to the logger
    and are not kept; reading their two columns, counting the
    satellites and taking the logarithm of the masses can fail. *)
Definition _log_populated_stats (o : HODBase) (data : StructArray)
  : result unit :=
  if decide (0 < array_len data) then
    gal_type <-? column_of data "gal_type";
    _ <-? count_equal gal_type "satellites";
    m <-? column_of data (mass o);
    numpy_log10 m
  else Ok tt.

(** Lines 121-122 and 166-167: the galaxy table of the mock is
    normalized in place, converted, and deleted from the mock. *)
Definition take_galaxy_table : prog Process StructArray :=
  let* m := gets (fun p => _model (self p)) in
  match mock m with
  | None => raise (AttributeError "mock")
  | Some mk =>
      match galaxy_table mk with
      | None => raise (AttributeError "galaxy_table")
      | Some g =>
          log (EvNormalize g) ;;
          let data := as_array (remove_object_dtypes g) in
          update_self (set_model
            {| param_dict := param_dict m; transform := transform m;
               mock := Some {| mock_halo_table := mock_halo_table mk;
                               galaxy_table := None |} |}) ;;
          ret data
      end
  end.

Definition _makesource : prog Process (list StructArray) :=
  (* gather all halos to root *)
  let* h := gets (fun p => _halos (self p)) in
  let all_halos :=
    GatherArray (as_array (halo_table h)) (as_array <$> halo_tables_others h) in
  log EvGather ;;
  (* root does the mock population *)
  let t := Table_of_array all_halos in
  log (EvNormalize t) ;;
  update_self (set_halo_table (remove_object_dtypes t)) ;;
  let* o := gets self in
  log (EvTransform (halo_table (_halos o))) ;;
  let* m := lift (populate_mock (_model o) (halo_table (_halos o)) (mass o) 1
                    (get_attr o "seed")) in
  update_self (set_model m) ;;
  let* data := take_galaxy_table in
  (* log the stats *)
  lift (_log_populated_stats o data) ;;
  log EvScatter ;;
  ret (ScatterArray data (comm_size h)).

(** The loop of the constructor over [param_dict]. *)
Fixpoint bind_params (names : list string) (attrs : gmap string pyval)
    (d : list (string * pyval)) : result (list (string * pyval)) :=
  match names with
  | [] => Ok d
  | param :: rest =>
      match attrs !! param with
      | None => Err (MissingParameterError param)
      | Some v => bind_params rest attrs (dict_set d param v)
      end
  end.

(** [d.update(l)] *)
Definition dict_update (d : gmap string pyval) (l : list (string * pyval))
  : gmap string pyval :=
  foldl (fun d kv => <[kv.1 := kv.2]> d) d l.

(** [numpy.empty(3)] filled by [[:] = Lbox] *)
Definition BoxSize (Lbox : pyval) : pyval :=
  match Lbox with
  | PyList l => PyList l
  | v => PyList [v; v; v]
  end.

Definition seed_value (seed : option Z) : pyval :=
  match seed with
  | Some z => PyInt z
  | None => PyNone
  end.

(** The attributes the constructor stores, lines 53-69. *)
Definition init_attrs (halos : UserSuppliedHaloCatalog)
    (cosmo : list (string * pyval)) (redshift : pyval) (mdef : string)
    (rsd : option pyval) (seed : option Z) (params : list (string * pyval))
  : gmap string pyval :=
  let rsd := default (PyList [PyInt 0; PyInt 0; PyFloat (QArith_base.Qmake 0 1)])
               rsd in
  let a := <["BoxSize" := BoxSize (Lbox halos)]> (∅ : gmap string pyval) in
  let a := <["mdef" := PyStr mdef]> a in
  let a := <["redshift" := redshift]> a in
  let a := <["rsd" := rsd]> a in
  let a := <["seed" := seed_value seed]> a in
  let a := dict_update a params in
  dict_update a ((fun kv => ("cosmo." +:+ kv.1, kv.2)) <$> cosmo).

Definition set_default_haloprop_list (l : list string) (w : World) : World :=
  {| default_haloprop_list_inherited_by_mock := l; events := events w |}.

(** [HODBase.__init__]; [_makemodel] is the abstract method a subclass
    supplies, it reads the halos, the cosmology, the attributes and the
    mass key. *)
Definition HODBase_init
    (_makemodel : UserSuppliedHaloCatalog -> list (string * pyval) ->
                  gmap string pyval -> string -> Model)
    (w : World) (halos : halos_arg) (cosmo : list (string * pyval))
    (redshift : pyval) (mdef : string) (rsd : option pyval)
    (seed : option Z) (use_cache : bool) (params : list (string * pyval))
  : World * result HODBase :=
  match halos with
  | OtherObject => (w, Err TypeError)
  | IsHaloCatalog halos =>
      (* store mass and radius keys *)
      let mass := get_halo_mass_key mdef in
      let radius := get_halo_boundary_key mdef in
      (* propagate all columns in the halo catalogs to the galaxy catalog *)
      let w := set_default_haloprop_list (colnames (halo_table halos)) w in
      (* store the attributes *)
      let attrs := init_attrs halos cosmo redshift mdef rsd seed params in
      (* make the model! *)
      let model := _makemodel halos cosmo attrs mass in
      (* set the HOD params *)
      match bind_params (keys (param_dict model)) attrs (param_dict model) with
      | Err e => (w, Err e)
      | Ok d =>
          let o := {| _halos := halos; cosmo := cosmo; attrs := attrs;
                      mass := mass; radius := radius;
                      _model := set_param_dict d model; _source := [];
                      use_cache := use_cache; generation := 0 |} in
          (* make the actual source *)
          match _makesource {| world := w; self := o |} with
          | (p, Err e) => (world p, Err e)
          | (p, Ok data) =>
              let o := Array_init data use_cache (self p) in
              (* crash with no particles! *)
              if decide (csize o = 0) then (world p, Err EmptyResultError)
              else (world p, Ok o)
          end
      end
  end.

(** The loop of [repopulate] over the supplied parameters. *)
Fixpoint update_params (params : list (string * pyval)) : prog Process unit :=
  match params with
  | [] => ret tt
  | (name, v) :: rest =>
      let* m := gets (fun p => _model (self p)) in
      if dict_in name (param_dict m) then
        update_self (set_model (set_param_dict (dict_set (param_dict m) name v) m)) ;;
        update_params rest
      else raise (UnknownParameterError name (keys (param_dict m)))
  end.

(** [HODBase.repopulate] *)
Definition repopulate (seed : option Z) (params : list (string * pyval))
  : prog Process unit :=
  (* set the new seed *)
  update_self (set_attr "seed" (seed_value seed)) ;;
  (* update the HOD model parameters *)
  update_params params ;;
  (* the root will do the mock population *)
  let* o := gets self in
  match mock (_model o) with
  | None => raise (AttributeError "mock")
  | Some mk =>
      log (EvTransform (mock_halo_table mk)) ;;
      let* m := lift (mock_populate (_model o) 1 (mass o) (get_attr o "seed")) in
      update_self (set_model m) ;;
      let* data := take_galaxy_table in
      (* log the stats *)
      lift (_log_populated_stats o data) ;;
      (* re-initialize with new source *)
      log EvScatter ;;
      update_self (Array_init (ScatterArray data (comm_size (_halos o)))
                     (use_cache o))
  end.

(** [numpy.vstack([a, b, c]).T] *)
Definition vstack3_T (a b c : list value) : list (value * value * value) :=
  zip (zip a b) c.

(** The [Position] and [Velocity] columns of the shard of one rank. *)
Definition Position (source : StructArray)
  : result (list (value * value * value)) :=
  x <-? field source "x";
  y <-? field source "y";
  z <-? field source "z";
  Ok (vstack3_T x y z).

Definition Velocity (source : StructArray)
  : result (list (value * value * value)) :=
  vx <-? field source "vx";
  vy <-? field source "vy";
  vz <-? field source "vz";
  Ok (vstack3_T vx vy vz).

(** ** [HOD]

    The subclass for the model of Zheng et al. 2007.  Its components
    are objects of halotools; what the code hands to their
    constructors is kept, and [HodModelFactory], which assembles the
    model from them, is a parameter. *)
Record Zheng07Cens := mkZheng07Cens { cens_prim_haloprop_key : string }.

Record Zheng07Sats := mkZheng07Sats {
  sats_prim_haloprop_key : string;
  modulate_with_cenocc : bool;
  _suppress_repeated_param_warning : bool
}.

(** The keywords [kws] both profiles are built with. *)
Record PhaseSpaceKws := mkKws {
  kw_cosmology : list (string * pyval);
  kw_redshift : pyval;
  kw_mdef : pyval
}.

Record NFWPhaseSpace := mkNFW {
  conc_mass_model : string;
  nfw_kws : PhaseSpaceKws
}.

Record HodComponents := mkComponents {
  centrals_occupation : Zheng07Cens;
  satellites_occupation : Zheng07Sats;
  centrals_profile : PhaseSpaceKws;
  satellites_profile : NFWPhaseSpace
}.

(** [HOD._makemodel] *)
Definition HOD_makemodel (HodModelFactory : HodComponents -> Model)
    (halos : UserSuppliedHaloCatalog) (cosmo : list (string * pyval))
    (attrs : gmap string pyval) (mass : string) : Model :=
  let conc_mass_model :=
    (* use concentration from halo table *)
    if decide ("halo_nfw_conc" ∈ colnames (halo_table halos))
    then "direct_from_halo_catalog"
    (* use empirical prescription for c(M) *)
    else "dutton_maccio14" in
  let kws := {| kw_cosmology := cosmo;
                kw_redshift := default PyNone (attrs !! "redshift");
                kw_mdef := default PyNone (attrs !! "mdef") |} in
  HodModelFactory
    {| centrals_occupation := {| cens_prim_haloprop_key := mass |};
       satellites_occupation :=
         {| sats_prim_haloprop_key := mass; modulate_with_cenocc := true;
            _suppress_repeated_param_warning := true |};
       centrals_profile := kws;
       satellites_profile :=
         {| conc_mass_model := conc_mass_model; nfw_kws := kws |} |}.

(** The default HOD values of [HOD.__init__], from Reid et al. 2014. *)
Definition decimal (n : Z) (d : positive) : pyval :=
  PyFloat (QArith_base.Qmake n d).

Definition default_logMmin : pyval := decimal 13031 1000.
Definition default_sigma_logM : pyval := decimal 38 100.
Definition default_alpha : pyval := decimal 76 100.
Definition default_logM0 : pyval := decimal 1327 100.
Definition default_logM1 : pyval := decimal 1408 100.

(** The parameters [HOD.__init__] hands on, in the order it stores
    them; an argument left out takes its default. *)
Definition HOD_params (logMmin sigma_logM alpha logM0 logM1 : option pyval)
  : list (string * pyval) :=
  [("logMmin", default default_logMmin logMmin);
   ("sigma_logM", default default_sigma_logM sigma_logM);
   ("alpha", default default_alpha alpha);
   ("logM0", default default_logM0 logM0);
   ("logM1", default default_logM1 logM1)].

(** [HOD.__init__] *)
Definition HOD_init (HodModelFactory : HodComponents -> Model)
    (w : World) (halos : halos_arg) (cosmo : list (string * pyval))
    (redshift : pyval) (mdef : string)
    (logMmin sigma_logM alpha logM0 logM1 : option pyval)
    (rsd : option pyval) (seed : option Z) (use_cache : bool)
  : World * result HODBase :=
  HODBase_init (HOD_makemodel HodModelFactory) w halos cosmo redshift mdef
    rsd seed use_cache (HOD_params logMmin sigma_logM alpha logM0 logM1).

(** ** A small instance

    Two ranks, five halos, and a model that keeps the halos whose mass
    reaches [logMmin] as central galaxies. *)
Module Demo.

Definition objs (l : list pyobject) : Column := mkColumn DObject (VObj <$> l).
Definition ints (l : list Z) : Column := mkColumn DInt (VInt <$> l).

Definition halos_rank0 : Table :=
  [("halo_mvir", ints [10; 20; 30]%Z);
   ("x", ints [1; 2; 3]%Z); ("y", ints [4; 5; 6]%Z); ("z", ints [7; 8; 9]%Z);
   ("vx", ints [0; 0; 0]%Z); ("vy", ints [1; 1; 1]%Z); ("vz", ints [2; 2; 2]%Z);
   ("tag", objs [ObjStr "a"; ObjInt 7; ObjNone])].

Definition halos_rank1 : Table :=
  [("halo_mvir", ints [40; 50]%Z);
   ("x", ints [11; 12]%Z); ("y", ints [14; 15]%Z); ("z", ints [17; 18]%Z);
   ("vx", ints [3; 3]%Z); ("vy", ints [4; 4]%Z); ("vz", ints [5; 5]%Z);
   ("tag", objs [ObjBool true; ObjStr "bb"])].

Definition halos : UserSuppliedHaloCatalog :=
  {| Lbox := PyInt 100; halo_table := halos_rank0;
     halo_tables_others := [halos_rank1] |}.

Definition keep_rows {A} (mask : list bool) (l : list A) : list A :=
  snd <$> filter (fun bx => bx.1 = true) (zip mask l).

Definition reaches (mmin : Z) (v : value) : bool :=
  match v with
  | VInt m => bool_decide (mmin <= m)%Z
  | _ => false
  end.

Definition centrals (halos : Table) (d : list (string * pyval))
    (key : string) (npt : nat) (seed : pyval) : result Table :=
  match dict_get halos key, dict_get d "logMmin" with
  | Some m, Some (PyInt mmin) =>
      let mask := reaches mmin <$> col_data m in
      Ok (("gal_type", objs (keep_rows mask
                                ((fun _ => ObjStr "centrals") <$> col_data m)))
          :: ((fun nc => (nc.1, mkColumn (col_dtype nc.2)
                                  (keep_rows mask (col_data nc.2)))) <$> halos))
  | _, _ => Err (TransformError "inconsistent mass definition")
  end.

Definition makemodel (h : UserSuppliedHaloCatalog)
    (cosmo : list (string * pyval)) (attrs : gmap string pyval)
    (mass : string) : Model :=
  {| param_dict := [("logMmin", PyInt 0); ("alpha", PyInt 1)];
     transform := centrals; mock := None |}.

Definition world0 : World :=
  {| default_haloprop_list_inherited_by_mock := []; events := [] |}.

Definition cosmology : list (string * pyval) := [("h", PyInt 1)].

Definition construct (seed : option Z) (params : list (string * pyval))
  : World * result HODBase :=
  HODBase_init makemodel world0 (IsHaloCatalog halos) cosmology (PyInt 0)
    "vir" None seed false params.

(** A catalog populated with the three halos of mass 30 and more. *)
Definition blank : HODBase :=
  {| _halos := halos; cosmo := cosmology; attrs := ∅; mass := "";
     radius := ""; _model := makemodel halos cosmology ∅ ""; _source := [];
     use_cache := false; generation := 0 |}.

Definition populated : Process :=
  match construct (Some 42%Z) [("logMmin", PyInt 25); ("alpha", PyInt 2)] with
  | (w, Ok o) => {| world := w; self := o |}
  | (w, Err _) => {| world := w; self := blank |}
  end.

(** A model that also declares a parameter called [seed]. *)
Definition makemodel_seeded (h : UserSuppliedHaloCatalog)
    (cosmo : list (string * pyval)) (attrs : gmap string pyval)
    (mass : string) : Model :=
  {| param_dict := [("logMmin", PyInt 0); ("seed", PyInt 0)];
     transform := centrals; mock := None |}.

Definition seeded : World * result HODBase :=
  HODBase_init makemodel_seeded world0 (IsHaloCatalog halos) cosmology
    (PyInt 0) "vir" None (Some 42%Z) false [("logMmin", PyInt 25)].

(** The shard x = [1, 2], y = [3, 4], z = [5, 6], and the same shard
    without z. *)
Definition xyz : StructArray :=
  as_array [("x", ints [1; 2]%Z); ("y", ints [3; 4]%Z); ("z", ints [5; 6]%Z)].

Definition xy : StructArray :=
  as_array [("x", ints [1; 2]%Z); ("y", ints [3; 4]%Z)].

(** The populated catalog after a repopulation with a lower mass
    threshold, and after one with a threshold no halo reaches. *)
Definition repopulated : Process :=
  (repopulate (Some 7%Z) [("logMmin", PyInt 15)] populated).1.

Definition emptied : Process :=
  (repopulate None [("logMmin", PyInt 99)] populated).1.

(** The populated catalog after a repopulation whose transform fails. *)
Definition failed : Process :=
  (repopulate None [("logMmin", PyStr "high")] populated).1.

(** A model whose galaxies carry their masses as texts once the
    parameter [alpha] is 0, and a catalog populated with it. *)
Definition spelled (halos : Table) (d : list (string * pyval))
    (key : string) (npt : nat) (seed : pyval) : result Table :=
  match dict_get d "alpha" with
  | Some (PyInt 0) =>
      g <-? centrals halos d key npt seed;
      Ok (table_set g key
            (objs ((fun _ => ObjStr "1e12") <$> seq 0 (table_len g))))
  | _ => centrals halos d key npt seed
  end.

Definition makemodel_spelled (h : UserSuppliedHaloCatalog)
    (cosmo : list (string * pyval)) (attrs : gmap string pyval)
    (mass : string) : Model :=
  {| param_dict := [("logMmin", PyInt 0); ("alpha", PyInt 1)];
     transform := spelled; mock := None |}.

Definition populated_spelled : Process :=
  match HODBase_init makemodel_spelled world0 (IsHaloCatalog halos) cosmology
          (PyInt 0) "vir" None (Some 42%Z) false
          [("logMmin", PyInt 25); ("alpha", PyInt 2)] with
  | (w, Ok o) => {| world := w; self := o |}
  | (w, Err _) => {| world := w; self := blank |}
  end.

(** What its transform returns once [alpha] is 0. *)
Definition spelled_galaxies : Table :=
  match spelled (halo_table (_halos (self populated_spelled)))
          [("logMmin", PyInt 25); ("alpha", PyInt 0)] "halo_mvir" 1 PyNone with
  | Ok g => g
  | Err _ => []
  end.

(** The model of Zheng et al. 2007 as far as its parameters go. *)
Definition zheng07 (c : HodComponents) : Model :=
  {| param_dict := [("logMmin", PyNone); ("sigma_logM", PyNone);
                    ("logM0", PyNone); ("logM1", PyNone); ("alpha", PyNone)];
     transform := centrals; mock := None |}.



(** The five halos gathered on the root. *)
Definition gathered : StructArray :=
  GatherArray (as_array halos_rank0) [as_array halos_rank1].

End Demo.

(** ⌈T/R⌉ *)
Definition ceil_div (T R : nat) : nat := (T + R - 1) `div` R.

(** ** Notions used to state the properties *)

(** What [remove_object_dtypes] does to one column. *)
Definition normalize_column (c : Column) : Column :=
  if decide (col_dtype c = DObject) then astype_U c else c.

(** A step keeps the part [f] of the state, whatever its outcome. *)
Definition preserves {S A T} (f : S -> T) (c : prog S A) : Prop :=
  forall s, f (c s).1 = f s.

(** The parameter store after the entries of [l] have been written. *)
Definition write_params (d l : list (string * pyval)) : list (string * pyval) :=
  foldl (fun d kv => dict_set d kv.1 kv.2) d l.

Definition with_param_dict (d : list (string * pyval)) (p : Process)
  : Process :=
  {| world := world p;
     self := set_model (set_param_dict d (_model (self p))) (self p) |}.

Definition known_by (p : Process) (name : string) : Prop :=
  name ∈ keys (param_dict (_model (self p))).

Global Instance known_by_dec p name : Decision (known_by p name).
Proof. unfold known_by. apply _. Defined.

(** The names the constructor stores itself, and those it stores for
    the cosmology. *)
Definition reserved_attrs : list string :=
  ["BoxSize"; "mdef"; "redshift"; "rsd"; "seed"].

Definition cosmo_attrs (cosmo : list (string * pyval)) : list string :=
  (fun kv => "cosmo." +:+ kv.1) <$> cosmo.

(** Three fields of a shard stacked into triples. *)
Definition stack3 (source : StructArray) (a b c : string)
  : result (list (value * value * value)) :=
  x <-? field source a;
  y <-? field source b;
  z <-? field source c;
  Ok (vstack3_T x y z).

(** What a successful construction did, in the order it did it. *)
Definition construction_cycle
    (_makemodel : UserSuppliedHaloCatalog -> list (string * pyval) ->
                  gmap string pyval -> string -> Model)
    (w : World) (h : UserSuppliedHaloCatalog) (cosmo : list (string * pyval))
    (redshift : pyval) (mdef : string) (rsd : option pyval) (seed : option Z)
    (params : list (string * pyval)) (w' : World) (o : HODBase) : Prop :=
  exists d g,
    let attrs0 := init_attrs h cosmo redshift mdef rsd seed params in
    let model := _makemodel h cosmo attrs0 (get_halo_mass_key mdef) in
    let t := Table_of_array
               (GatherArray (as_array (halo_table h))
                  (as_array <$> halo_tables_others h)) in
    bind_params (keys (param_dict model)) attrs0 (param_dict model) = Ok d /\
    transform model (remove_object_dtypes t) d (get_halo_mass_key mdef) 1
      (default PyNone (attrs0 !! "seed")) = Ok g /\
    _source o
    = ScatterArray (as_array (remove_object_dtypes g)) (comm_size h) /\
    events w'
    = events w ++ [EvGather; EvNormalize t;
                   EvTransform (remove_object_dtypes t);
                   EvNormalize g; EvScatter] /\
    mock (_model o)
    = Some {| mock_halo_table := remove_object_dtypes t;
              galaxy_table := None |}.

(** What a construction did, whatever its outcome: a run that fails
    stops somewhere along the way of a successful one. *)
Definition construction_calls
    (_makemodel : UserSuppliedHaloCatalog -> list (string * pyval) ->
                  gmap string pyval -> string -> Model)
    (w : World) (h : UserSuppliedHaloCatalog) (cosmo : list (string * pyval))
    (redshift : pyval) (mdef : string) (rsd : option pyval) (seed : option Z)
    (params : list (string * pyval)) (w' : World) : Prop :=
  let attrs0 := init_attrs h cosmo redshift mdef rsd seed params in
  let model := _makemodel h cosmo attrs0 (get_halo_mass_key mdef) in
  let t := Table_of_array
             (GatherArray (as_array (halo_table h))
                (as_array <$> halo_tables_others h)) in
  let ht := remove_object_dtypes t in
  events w' = events w \/
  exists d,
    bind_params (keys (param_dict model)) attrs0 (param_dict model) = Ok d /\
    (events w' = events w ++ [EvGather; EvNormalize t; EvTransform ht] \/
     exists g,
       transform model ht d (get_halo_mass_key mdef) 1
         (default PyNone (attrs0 !! "seed")) = Ok g /\
       (events w'
        = events w ++ [EvGather; EvNormalize t; EvTransform ht;
                       EvNormalize g] \/
        events w'
        = events w ++ [EvGather; EvNormalize t; EvTransform ht;
                       EvNormalize g; EvScatter])).

(** What a successful repopulation did, in the order it did it. *)
Definition repopulation_cycle (seed : option Z)
    (params : list (string * pyval)) (p p' : Process) : Prop :=
  exists mk g,
    mock (_model (self p)) = Some mk /\
    transform (_model (self p)) (mock_halo_table mk)
      (write_params (param_dict (_model (self p))) params)
      (mass (self p)) 1 (seed_value seed) = Ok g /\
    _source (self p')
    = ScatterArray (as_array (remove_object_dtypes g))
        (comm_size (_halos (self p))) /\
    events (world p')
    = events (world p) ++ [EvTransform (mock_halo_table mk);
                           EvNormalize g; EvScatter] /\
    mock (_model (self p'))
    = Some {| mock_halo_table := mock_halo_table mk;
              galaxy_table := None |}.

(** What a repopulation did, whatever its outcome. *)
Definition repopulation_calls (seed : option Z)
    (params : list (string * pyval)) (p p' : Process) : Prop :=
  events (world p') = events (world p) \/
  exists mk,
    mock (_model (self p)) = Some mk /\
    (events (world p')
     = events (world p) ++ [EvTransform (mock_halo_table mk)] \/
     exists g,
       transform (_model (self p)) (mock_halo_table mk)
         (write_params (param_dict (_model (self p))) params)
         (mass (self p)) 1 (seed_value seed) = Ok g /\
       (events (world p')
        = events (world p) ++ [EvTransform (mock_halo_table mk);
                               EvNormalize g] \/
        events (world p')
        = events (world p) ++ [EvTransform (mock_halo_table mk);
                               EvNormalize g; EvScatter])).

(** * Properties *)

(** ** Contiguous blocks *)
Section Blocks.
Context {A : Type}.
Implicit Types (l : list A) (szs : list nat).

Lemma reshape_lookup szs l i :
  reshape szs l !! i
  = (fun sz => take sz (drop (sum_list (take i szs)) l)) <$> szs !! i.
Proof.
  revert l i. induction szs as [|sz szs IH]; intros l [|i]; simpl; try done.
  rewrite IH. destruct (szs !! i); simpl; [|done].
  by rewrite drop_drop.
Qed.

Lemma reshape_lengths szs l :
  sum_list szs ≤ length l -> length <$> reshape szs l = szs.
Proof.
  revert l. induction szs as [|sz szs IH]; intros l Hl; simpl in *; [done|].
  rewrite length_take, IH by (rewrite length_drop; lia).
  f_equal. lia.
Qed.
End Blocks.

Lemma sum_sizes (b r n : nat) :
  sum_list ((fun i => if decide (i < r) then b + 1 else b) <$> seq 0 n)
  = n * b + r `min` n.
Proof.
  induction n as [|n IH]; [simpl; lia|].
  rewrite seq_S, fmap_app, sum_list_with_app, IH. simpl.
  case_decide; lia.
Qed.

Lemma count_larger (b r n : nat) :
  length (filter (fun s => b < s)
            ((fun i => if decide (i < r) then b + 1 else b) <$> seq 0 n))
  = r `min` n.
Proof.
  induction n as [|n IH]; [simpl; lia|].
  rewrite seq_S, fmap_app, filter_app, length_app, IH. simpl.
  case_decide.
  - rewrite filter_cons_True by lia. simpl. lia.
  - rewrite filter_cons_False by lia. simpl. lia.
Qed.

Lemma sum_shard_sizes (T R : nat) : 0 < R -> sum_list (shard_sizes T R) = T.
Proof.
  intros HR. unfold shard_sizes, shard_size. rewrite sum_sizes.
  pose proof (Nat.mod_upper_bound T R) as Hm.
  pose proof (Nat.div_mod_eq T R) as Hd. lia.
Qed.

Lemma sum_shard_sizes_le (T R : nat) : sum_list (shard_sizes T R) ≤ T.
Proof.
  destruct R as [|R]; [simpl; lia|]. rewrite sum_shard_sizes; lia.
Qed.

Lemma ScatterArray_lengths (data : StructArray) (R : nat) :
  array_len <$> ScatterArray data R = shard_sizes (array_len data) R.
Proof.
  unfold ScatterArray, scatter_rows, array_len.
  rewrite <- list_fmap_compose.
  rewrite <- (reshape_lengths (shard_sizes (length (records data)) R)
                (records data)) at 2 by apply sum_shard_sizes_le.
  by apply list_fmap_ext.
Qed.

Lemma ScatterArray_records (data : StructArray) (R : nat) :
  records <$> ScatterArray data R = scatter_rows (records data) R.
Proof.
  unfold ScatterArray. rewrite <- list_fmap_compose.
  rewrite <- (list_fmap_id (scatter_rows _ _)) at 2. by apply list_fmap_ext.
Qed.

Lemma ceil_div_cases (T R : nat) :
  0 < R ->
  ceil_div T R = if decide (T `mod` R = 0) then T `div` R else T `div` R + 1.
Proof.
  intros HR. unfold ceil_div.
  pose proof (Nat.mod_upper_bound T R) as Hm.
  pose proof (Nat.div_mod_eq T R) as Hd.
  case_decide as H0; symmetry.
  - apply (Nat.div_unique _ _ _ (R - 1)); lia.
  - apply (Nat.div_unique _ _ _ (T `mod` R - 1)); lia.
Qed.

Lemma filter_fmap_length {A B} (f : A -> B) (P : B -> Prop)
    `{!forall y, Decision (P y)} (l : list A) :
  length (filter (fun x => P (f x)) l) = length (filter P (f <$> l)).
Proof.
  induction l as [|x l IH]; [done|]. csimpl.
  rewrite !filter_cons. case_decide; simpl; by rewrite IH.
Qed.

Lemma ScatterArray_lookup (data : StructArray) (R i : nat) :
  i < R ->
  ScatterArray data R !! i
  = Some (mkArray (fields data)
            (take (shard_size (array_len data) R i)
               (drop (sum_list (take i (shard_sizes (array_len data) R)))
                  (records data)))).
Proof.
  intros Hi. unfold ScatterArray, scatter_rows.
  rewrite list_lookup_fmap, reshape_lookup. unfold shard_sizes at 2.
  rewrite list_lookup_fmap, lookup_seq_lt by done. done.
Qed.

(** ** The balanced partition *)

(** C4: when a consolidated array of [T] rows is scattered over [R]
    ranks, rank [i] receives [T/R + 1] rows if [i < T mod R] and [T/R]
    rows otherwise; that count is ⌊T/R⌋ or ⌈T/R⌉, and exactly
    [T mod R] ranks, the lowest ones, receive more than ⌊T/R⌋ rows. *)
Theorem ScatterArray_balanced (data : StructArray) (R i : nat) :
  i < R ->
  let T := array_len data in
  exists shard,
    ScatterArray data R !! i = Some shard /\
    array_len shard
    = (if decide (i < T `mod` R) then T `div` R + 1 else T `div` R) /\
    (array_len shard = T `div` R \/ array_len shard = ceil_div T R) /\
    (T `div` R < array_len shard <-> i < T `mod` R) /\
    length (filter (fun s => T `div` R < array_len s) (ScatterArray data R))
    = T `mod` R.
Proof.
  intros Hi T.
  assert (Hsz : (array_len <$> ScatterArray data R) !! i
                = Some (shard_size T R i)).
  { rewrite ScatterArray_lengths. unfold shard_sizes.
    by rewrite list_lookup_fmap, lookup_seq_lt. }
  rewrite list_lookup_fmap in Hsz.
  destruct (ScatterArray data R !! i) as [shard|] eqn:Hshard; [|done].
  injection Hsz as Hlen. exists shard. split; [done|].
  unfold shard_size in Hlen. fold T in Hlen.
  pose proof (Nat.mod_upper_bound T R) as Hm.
  repeat split.
  - done.
  - rewrite ceil_div_cases by lia. rewrite Hlen.
    repeat case_decide; lia.
  - rewrite Hlen. case_decide; lia.
  - rewrite Hlen. case_decide; lia.
  - rewrite (filter_fmap_length array_len (fun n => T `div` R < n)).
    rewrite ScatterArray_lengths. unfold shard_sizes, shard_size. fold T.
    rewrite count_larger. lia.
Qed.

Lemma ScatterArray_balanced_witness :
  0 < 2 /\
  exists shard,
    ScatterArray Demo.gathered 2 !! 0 = Some shard /\
    array_len shard
    = (if decide (0 < array_len Demo.gathered `mod` 2)
       then array_len Demo.gathered `div` 2 + 1
       else array_len Demo.gathered `div` 2) /\
    (array_len shard = array_len Demo.gathered `div` 2 \/
     array_len shard = ceil_div (array_len Demo.gathered) 2) /\
    (array_len Demo.gathered `div` 2 < array_len shard
     <-> 0 < array_len Demo.gathered `mod` 2) /\
    length (filter (fun s => array_len Demo.gathered `div` 2 < array_len s)
              (ScatterArray Demo.gathered 2))
    = array_len Demo.gathered `mod` 2.
Proof.
  split; [lia|]. apply (ScatterArray_balanced Demo.gathered 2 0). lia.
Defined.

(** ** Gather followed by scatter *)

(** C5: the gathered array lists the rows of rank 0, then those of
    rank 1, and so on, each contribution in its own order; scatter
    hands out contiguous blocks of it in the same order; so the shards
    of a gather followed by a scatter, concatenated by rank, are the
    gathered rows again. *)
Theorem gather_scatter_roundtrip (root : StructArray)
    (others : list StructArray) :
  let R := S (length others) in
  let all := GatherArray root others in
  (forall j a k x,
      (root :: others) !! j = Some a -> records a !! k = Some x ->
      records all
        !! (sum_list (array_len <$> take j (root :: others)) + k) = Some x) /\
  (forall i, i < R ->
      ScatterArray all R !! i
      = Some (mkArray (fields root)
                (take (shard_size (array_len all) R i)
                   (drop (sum_list (take i (shard_sizes (array_len all) R)))
                      (records all))))) /\
  mjoin (records <$> ScatterArray all R) = records all /\
  records all = mjoin (records <$> root :: others).
Proof.
  intros R all. repeat split.
  - intros j a k x Hj Hk. unfold all, GatherArray, gather_rows. cbn [records].
    apply join_lookup_Some. exists j, (records a), k. split_and!.
    + by rewrite list_lookup_fmap, Hj.
    + done.
    + rewrite <- fmap_take, <- list_fmap_compose. done.
  - intros i Hi. by rewrite ScatterArray_lookup.
  - rewrite ScatterArray_records. unfold scatter_rows.
    apply join_reshape, sum_shard_sizes. lia.
Qed.

Lemma gather_scatter_roundtrip_witness :
  ScatterArray Demo.gathered 2 !! 1
  = Some (mkArray (fields (as_array Demo.halos_rank0))
            (take 2 (drop 3 (records Demo.gathered)))) /\
  mjoin (records <$> ScatterArray Demo.gathered 2)
  = mjoin (records <$> [as_array Demo.halos_rank0; as_array Demo.halos_rank1]).
Proof.
  destruct (gather_scatter_roundtrip (as_array Demo.halos_rank0)
              [as_array Demo.halos_rank1]) as (_ & Hblock & Hjoin & Hall).
  split.
  - apply (Hblock 1). simpl. lia.
  - etrans; [exact Hjoin|exact Hall].
Defined.

(** ** Dictionaries *)
Section DictFacts.
Context {V : Type}.
Implicit Types (d : list (string * V)) (k : string) (v : V).

Lemma dict_get_None d k : dict_get d k = None <-> k ∉ keys d.
Proof.
  unfold keys. induction d as [|[k' v'] d IH]; simpl.
  - split; [intros _; apply not_elem_of_nil|done].
  - rewrite not_elem_of_cons, <- IH. case_decide as Hk.
    + split; [done|]. by intros [? _].
    + split; [intros ?; split; [congruence|done]|]. by intros [_ ?].
Qed.

Lemma dict_in_true d k : dict_in k d = true <-> k ∈ keys d.
Proof.
  unfold dict_in. rewrite bool_decide_eq_true, <- not_eq_None_Some, dict_get_None.
  split; [apply dec_stable|auto].
Qed.

Lemma dict_in_false d k : dict_in k d = false <-> k ∉ keys d.
Proof. rewrite <- dict_in_true. by destruct (dict_in k d). Qed.

Lemma dict_get_app_r d1 d2 k :
  k ∉ keys d1 -> dict_get (d1 ++ d2) k = dict_get d2 k.
Proof.
  unfold keys. induction d1 as [|[k' v'] d1 IH]; simpl; [done|].
  rewrite not_elem_of_cons. intros [? ?]. case_decide; [congruence|auto].
Qed.

Lemma dict_set_app_r d1 d2 k v :
  k ∉ keys d1 -> dict_set (d1 ++ d2) k v = d1 ++ dict_set d2 k v.
Proof.
  unfold keys. induction d1 as [|[k' v'] d1 IH]; simpl; [done|].
  rewrite not_elem_of_cons. intros [? ?].
  case_decide; [congruence|]. by rewrite IH.
Qed.

Lemma keys_dict_set d k v : k ∈ keys d -> keys (dict_set d k v) = keys d.
Proof.
  unfold keys. induction d as [|[k' v'] d IH]; simpl.
  - by intros ?%elem_of_nil.
  - intros Hin. case_decide as Hk; simpl; [done|]. f_equal. apply IH.
    apply elem_of_cons in Hin as [->|Hin]; done.
Qed.
End DictFacts.

(** ** Normalization of object columns *)

Lemma remove_object_dtypes_steps (pre todo : Table) :
  NoDup (colnames (pre ++ todo)) ->
  foldl remove_object_dtypes_step (pre ++ todo) (colnames todo)
  = pre ++ ((fun nc => (nc.1, normalize_column nc.2)) <$> todo).
Proof.
  revert pre. induction todo as [|[n c] todo IH]; intros pre Hnd; [done|].
  assert (Hn : n ∉ keys pre).
  { unfold colnames in Hnd. rewrite fmap_app in Hnd.
    apply NoDup_app in Hnd as (_ & Hdis & _).
    intros Hin. apply (Hdis n Hin). simpl. left. }
  simpl. unfold remove_object_dtypes_step at 2, table_set.
  rewrite dict_get_app_r by done. simpl.
  rewrite decide_True by done.
  unfold normalize_column at 1. simpl.
  replace (if decide (col_dtype c = DObject)
           then dict_set (pre ++ (n, c) :: todo) n (astype_U c)
           else pre ++ (n, c) :: todo)
    with ((pre ++ [(n, if decide (col_dtype c = DObject)
                        then astype_U c else c)]) ++ todo).
  - rewrite IH.
    + by rewrite <- app_assoc.
    + revert Hnd. unfold colnames. rewrite !fmap_app. simpl.
      by rewrite <- app_assoc.
  - case_decide.
    + rewrite dict_set_app_r by done. simpl. rewrite decide_True by done.
      by rewrite <- app_assoc.
    + by rewrite <- app_assoc.
Qed.

Lemma remove_object_dtypes_columns (t : Table) :
  NoDup (colnames t) ->
  remove_object_dtypes t = (fun nc => (nc.1, normalize_column nc.2)) <$> t.
Proof.
  intros Hnd. apply (remove_object_dtypes_steps [] t Hnd).
Qed.

(** ** Reasoning about the methods *)
Section Prog.
Context {S : Type}.

Lemma seq_prog_Ok {A B} (c : prog S A) (k : A -> prog S B) s s' a :
  c s = (s', Ok a) -> seq_prog c k s = k a s'.
Proof. unfold seq_prog. by intros ->. Qed.

Lemma seq_prog_Err {A B} (c : prog S A) (k : A -> prog S B) s s' e :
  c s = (s', Err e) -> seq_prog c k s = (s', Err e).
Proof. unfold seq_prog. by intros ->. Qed.

Lemma seq_prog_inv_Ok {A B} (c : prog S A) (k : A -> prog S B) s s2 b :
  seq_prog c k s = (s2, Ok b) ->
  exists s1 a, c s = (s1, Ok a) /\ k a s1 = (s2, Ok b).
Proof.
  unfold seq_prog. destruct (c s) as [s1 [a|e]]; [eauto|done].
Qed.

Lemma preserves_ret {A T} (f : S -> T) (a : A) : preserves f (ret a).
Proof. done. Qed.

Lemma preserves_raise {A T} (f : S -> T) e : preserves f (raise (A:=A) e).
Proof. done. Qed.

Lemma preserves_lift {A T} (f : S -> T) (r : result A) : preserves f (lift r).
Proof. done. Qed.

Lemma preserves_gets {A T} (f : S -> T) (g : S -> A) : preserves f (gets g).
Proof. done. Qed.

Lemma preserves_modify {T} (f : S -> T) (g : S -> S) :
  (forall s, f (g s) = f s) -> preserves f (modify g).
Proof. intros H s. apply H. Qed.

Lemma preserves_seq {A B T} (f : S -> T) (c : prog S A) (k : A -> prog S B) :
  preserves f c -> (forall a, preserves f (k a)) -> preserves f (seq_prog c k).
Proof.
  intros Hc Hk s. unfold seq_prog. specialize (Hc s).
  destruct (c s) as [s1 [a|e]]; simpl in *; [|done].
  by rewrite Hk.
Qed.
End Prog.

Create HintDb preserves.
#[export] Hint Resolve preserves_ret preserves_raise preserves_lift
  preserves_gets : preserves.

Lemma take_galaxy_table_preserves {T} (f : Process -> T) :
  (forall p m, f {| world := world p; self := set_model m (self p) |} = f p) ->
  (forall p e, f (log e p).1 = f p) ->
  preserves f take_galaxy_table.
Proof.
  intros Hm Hl. unfold take_galaxy_table.
  apply preserves_seq; [apply preserves_gets|]. intros m.
  destruct (mock m) as [mk|]; [|apply preserves_raise].
  destruct (galaxy_table mk) as [g|]; [|apply preserves_raise].
  apply preserves_seq; [intros s; apply Hl|]. intros _.
  apply preserves_seq; [|intros ?; apply preserves_ret].
  apply preserves_modify. intros s. apply Hm.
Qed.

Lemma update_params_preserves {T} (f : Process -> T) params :
  (forall p m, f {| world := world p; self := set_model m (self p) |} = f p) ->
  preserves f (update_params params).
Proof.
  intros Hm. induction params as [|[name v] params IH]; simpl.
  - apply preserves_ret.
  - apply preserves_seq; [apply preserves_gets|]. intros m.
    destruct (dict_in name (param_dict m)); [|apply preserves_raise].
    apply preserves_seq; [|by intros _].
    apply preserves_modify. intros s. apply Hm.
Qed.

(** ** The parameter loop of [repopulate] *)

Lemma with_param_dict_id p :
  with_param_dict (param_dict (_model (self p))) p = p.
Proof. by destruct p as [w [? ? ? ? ? [? ? ?] ? ? ?]]. Qed.

Lemma keys_write_params d l :
  Forall (fun kv => kv.1 ∈ keys d) l -> keys (write_params d l) = keys d.
Proof.
  revert d. induction l as [|[k v] l IH]; intros d Hl; [done|].
  apply Forall_cons in Hl as [Hk Hl]. simpl in *.
  rewrite IH; [by apply keys_dict_set|].
  by rewrite keys_dict_set.
Qed.

Lemma update_params_known params p :
  Forall (fun kv => known_by p kv.1) params ->
  update_params params p
  = (with_param_dict (write_params (param_dict (_model (self p))) params) p,
     Ok tt).
Proof.
  revert p. induction params as [|[name v] params IH]; intros p Hk.
  - simpl. unfold ret. by rewrite with_param_dict_id.
  - apply Forall_cons in Hk as [Hname Hk]. unfold known_by in *. simpl in *.
    unfold seq_prog at 1, gets. apply dict_in_true in Hname as Hin.
    rewrite Hin. unfold seq_prog, update_self, modify.
    rewrite IH.
    + done.
    + simpl. by rewrite keys_dict_set.
Qed.

Lemma update_params_unknown pre name v post p :
  Forall (fun kv => known_by p kv.1) pre ->
  ~ known_by p name ->
  update_params (pre ++ (name, v) :: post) p
  = (with_param_dict (write_params (param_dict (_model (self p))) pre) p,
     Err (UnknownParameterError name (keys (param_dict (_model (self p)))))).
Proof.
  revert p. induction pre as [|[k x] pre IH]; intros p Hk Hn.
  - simpl. unfold seq_prog, gets, raise. unfold known_by in Hn.
    apply dict_in_false in Hn. rewrite Hn. by rewrite with_param_dict_id.
  - apply Forall_cons in Hk as [Hkn Hk]. unfold known_by in *. simpl in *.
    unfold seq_prog at 1, gets. apply dict_in_true in Hkn as Hin.
    rewrite Hin. unfold seq_prog at 1, update_self, modify.
    rewrite IH.
    + simpl. by rewrite keys_dict_set.
    + simpl. by rewrite keys_dict_set.
    + simpl. by rewrite keys_dict_set.
Qed.

(** A list of parameters with an unknown name splits at the first one. *)
Lemma first_unknown (P : string -> Prop) `{!forall k, Decision (P k)}
    (params : list (string * pyval)) :
  (exists name, name ∈ keys params /\ ~ P name) ->
  exists pre name v post,
    params = pre ++ (name, v) :: post /\
    Forall (fun kv => P kv.1) pre /\ ~ P name.
Proof.
  induction params as [|[k x] params IH]; intros (name & Hin & Hn).
  - by apply elem_of_nil in Hin.
  - destruct (decide (P k)) as [Hk|Hk].
    + destruct IH as (pre & n & v & post & -> & Hpre & Hbad).
      { exists name. split; [|done]. unfold keys in *. simpl in Hin.
        apply elem_of_cons in Hin as [->|Hin]; done. }
      exists ((k, x) :: pre), n, v, post. split_and!; [done| |done].
      by apply Forall_cons.
    + exists [], k, x, params. by split_and!.
Qed.

(** Decomposes a goal [preserves f c] along the structure of [c]. *)
Ltac preserves_step :=
  cbv beta zeta;
  lazymatch goal with
  | |- preserves _ (seq_prog _ _) => apply preserves_seq; [|intros ?]
  | |- preserves _ (ret _) => apply preserves_ret
  | |- preserves _ (raise _) => apply preserves_raise
  | |- preserves _ (lift _) => apply preserves_lift
  | |- preserves _ (gets _) => apply preserves_gets
  | |- preserves _ (log _) => apply preserves_modify; intros ?; reflexivity
  | |- preserves _ (update_self _) =>
      apply preserves_modify; intros ?; reflexivity
  | |- preserves _ (update_params _) =>
      apply update_params_preserves; intros ? ?; reflexivity
  | |- preserves _ take_galaxy_table =>
      apply take_galaxy_table_preserves; intros ? ?; reflexivity
  | |- preserves _ (match ?x with _ => _ end) => destruct x
  end.

Ltac preserves_tac := repeat preserves_step.

Lemma repopulate_unknown seed pre name v post p :
  Forall (fun kv => known_by p kv.1) pre ->
  ~ known_by p name ->
  repopulate seed (pre ++ (name, v) :: post) p
  = (with_param_dict (write_params (param_dict (_model (self p))) pre)
       {| world := world p;
          self := set_attr "seed" (seed_value seed) (self p) |},
     Err (UnknownParameterError name (keys (param_dict (_model (self p)))))).
Proof.
  intros Hpre Hn. unfold repopulate.
  unfold seq_prog at 1, update_self at 1, modify.
  unfold seq_prog at 1.
  by rewrite (update_params_unknown pre name v post
                {| world := world p;
                   self := set_attr "seed" (seed_value seed) (self p) |}).
Qed.

Lemma repopulate_keeps_attrs seed params p :
  attrs (self (repopulate seed params p).1)
  = <["seed" := seed_value seed]> (attrs (self p)).
Proof.
  unfold repopulate. unfold seq_prog at 1, update_self at 1, modify.
  match goal with
  | |- attrs (self (?rest ?p1).1) = _ =>
      assert (Hrest : preserves (fun s => attrs (self s)) rest)
  end.
  { preserves_tac. }
  by rewrite Hrest.
Qed.

Lemma repopulate_keeps_global seed params :
  preserves (fun s => default_haloprop_list_inherited_by_mock (world s))
    (repopulate seed params).
Proof. unfold repopulate. preserves_tac. Qed.

Lemma _makesource_keeps_global :
  preserves (fun s => default_haloprop_list_inherited_by_mock (world s))
    _makesource.
Proof. unfold _makesource. preserves_tac. Qed.

(** ** Repopulation with an unknown parameter name *)

(** C2: a call to [repopulate] that supplies a name the model does not
    know fails with [UnknownParameterError]; the shards and the
    generation are those from before the call, and nothing was logged:
    the error comes before any collective. *)
Theorem repopulate_rejects_unknown_parameter (p : Process)
    (seed : option Z) (params : list (string * pyval)) :
  (exists name, name ∈ keys params /\ ~ known_by p name) ->
  exists name p',
    repopulate seed params p
    = (p', Err (UnknownParameterError name
                  (keys (param_dict (_model (self p)))))) /\
    name ∈ keys params /\ ~ known_by p name /\
    _source (self p') = _source (self p) /\
    generation (self p') = generation (self p) /\
    events (world p') = events (world p) /\
    world p' = world p.
Proof.
  intros Hex.
  apply (first_unknown (known_by p)) in Hex
    as (pre & name & v & post & -> & Hpre & Hn).
  exists name. eexists. split; [by apply repopulate_unknown|].
  split_and!; try done.
  unfold keys. rewrite fmap_app. apply elem_of_app. right. left.
Qed.

Lemma repopulate_rejects_unknown_parameter_witness :
  (exists name,
      name ∈ keys [("not_a_param", PyInt 1)] /\
      ~ known_by Demo.populated name) /\
  exists name p',
    repopulate None [("not_a_param", PyInt 1)] Demo.populated
    = (p', Err (UnknownParameterError name
                  (keys (param_dict (_model (self Demo.populated)))))) /\
    name ∈ keys [("not_a_param", PyInt 1)] /\
    ~ known_by Demo.populated name /\
    _source (self p') = _source (self Demo.populated) /\
    generation (self p') = generation (self Demo.populated) /\
    events (world p') = events (world Demo.populated) /\
    world p' = world Demo.populated.
Proof.
  assert (H : exists name,
             name ∈ keys [("not_a_param", PyInt 1)] /\
             ~ known_by Demo.populated name).
  { exists "not_a_param". split; [apply list_elem_of_here|].
    apply dict_in_false. vm_compute. reflexivity. }
  split; [exact H|].
  apply (repopulate_rejects_unknown_parameter Demo.populated None
           [("not_a_param", PyInt 1)] H).
Defined.

(** ** The seed of a repopulation *)

(** C9: [repopulate] called without a seed stores [None] as the seed
    attribute, whatever was stored before and whatever the outcome of
    the call, also when the call fails on an unknown parameter name. *)
Theorem repopulate_overwrites_seed (p : Process)
    (params : list (string * pyval)) :
  attrs (self (repopulate None params p).1) !! "seed" = Some PyNone /\
  ((exists name, name ∈ keys params /\ ~ known_by p name) ->
   exists name valid p',
     repopulate None params p = (p', Err (UnknownParameterError name valid)) /\
     attrs (self p') !! "seed" = Some PyNone).
Proof.
  split.
  - rewrite repopulate_keeps_attrs. apply lookup_insert_eq.
  - intros Hex.
    apply (first_unknown (known_by p)) in Hex
      as (pre & name & v & post & -> & Hpre & Hn).
    eexists _, _, _. split; [by apply repopulate_unknown|].
    simpl. apply lookup_insert_eq.
Qed.

Lemma repopulate_overwrites_seed_witness :
  attrs (self Demo.populated) !! "seed" = Some (PyInt 42) /\
  attrs (self (repopulate None [("not_a_param", PyInt 1)]
                 Demo.populated).1) !! "seed" = Some PyNone.
Proof.
  split; [vm_compute; reflexivity|].
  apply (proj1 (repopulate_overwrites_seed Demo.populated
                  [("not_a_param", PyInt 1)])).
Defined.

(** ** The parameter update is not atomic *)

(** C10: when the parameters supplied to [repopulate] hold an unknown
    name, the parameters iterated before it are in the parameter store
    of the model when the error is raised; there are calls after whose
    failure that store differs from the one before the call. *)
Theorem repopulate_not_atomic :
  (forall p seed pre name v post,
      Forall (fun kv => known_by p kv.1) pre ->
      ~ known_by p name ->
      exists p',
        repopulate seed (pre ++ (name, v) :: post) p
        = (p', Err (UnknownParameterError name
                      (keys (param_dict (_model (self p)))))) /\
        param_dict (_model (self p'))
        = write_params (param_dict (_model (self p))) pre) /\
  (exists p seed params p' name valid,
      repopulate seed params p = (p', Err (UnknownParameterError name valid)) /\
      param_dict (_model (self p')) <> param_dict (_model (self p))).
Proof.
  split.
  - intros p seed pre name v post Hpre Hn. eexists.
    split; [by apply repopulate_unknown|done].
  - exists Demo.populated, None,
      ([("logMmin", PyInt 99)] ++ ("not_a_param", PyInt 1) :: []).
    eexists _, _, _. split.
    + apply repopulate_unknown.
      * apply Forall_cons. split; [|done].
        apply dict_in_true. vm_compute. reflexivity.
      * apply dict_in_false. vm_compute. reflexivity.
    + vm_compute. intros [=].
Qed.

Lemma repopulate_not_atomic_witness :
  exists p',
    repopulate None
      ([("logMmin", PyInt 99)] ++ ("not_a_param", PyInt 1) :: [])
      Demo.populated
    = (p', Err (UnknownParameterError "not_a_param"
                  (keys (param_dict (_model (self Demo.populated)))))) /\
    param_dict (_model (self p'))
    = write_params (param_dict (_model (self Demo.populated)))
        [("logMmin", PyInt 99)].
Proof.
  apply (proj1 repopulate_not_atomic).
  - apply Forall_cons. split; [|done].
    apply dict_in_true. vm_compute. reflexivity.
  - apply dict_in_false. vm_compute. reflexivity.
Defined.

(** ** The module global set by the constructor *)

(** C8: constructing a catalog sets the module global
    [default_haloprop_list_inherited_by_mock] to the column names of
    the halo table, whatever it held and whether or not the
    construction then succeeds; the global is no part of the catalog,
    it stays in place through later repopulations of any catalog, and a
    later construction starts from it and replaces it by its own. *)
Theorem construction_sets_global_default
    (_makemodel : UserSuppliedHaloCatalog -> list (string * pyval) ->
                  gmap string pyval -> string -> Model)
    (w : World) (h : UserSuppliedHaloCatalog) (cosmo : list (string * pyval))
    (redshift : pyval) (mdef : string) (rsd : option pyval) (seed : option Z)
    (use_cache : bool) (params : list (string * pyval)) :
  let w1 := (HODBase_init _makemodel w (IsHaloCatalog h) cosmo redshift mdef
               rsd seed use_cache params).1 in
  default_haloprop_list_inherited_by_mock w1 = colnames (halo_table h) /\
  (forall o seed' params',
      default_haloprop_list_inherited_by_mock
        (world (repopulate seed' params' {| world := w1; self := o |}).1)
      = colnames (halo_table h)) /\
  (forall mk' h' cosmo' redshift' mdef' rsd' seed' use_cache' params',
      default_haloprop_list_inherited_by_mock
        (HODBase_init mk' w1 (IsHaloCatalog h') cosmo' redshift' mdef' rsd'
           seed' use_cache' params').1
      = colnames (halo_table h')).
Proof.
  assert (Hset : forall mk' w0 h' cosmo' redshift' mdef' rsd' seed' use_cache'
                   params',
             default_haloprop_list_inherited_by_mock
               (HODBase_init mk' w0 (IsHaloCatalog h') cosmo' redshift' mdef'
                  rsd' seed' use_cache' params').1
             = colnames (halo_table h')).
  { intros. unfold HODBase_init.
    destruct (bind_params _ _ _) as [d|e]; [|done].
    match goal with
    | |- context [_makesource ?p0] =>
        pose proof (_makesource_keeps_global p0) as Hk;
        destruct (_makesource p0) as [p1 [data|e]]
    end; simpl in Hk; [|done].
    by case_decide. }
  intros w1. split_and!.
  - apply Hset.
  - intros o seed' params'.
    rewrite (repopulate_keeps_global seed' params' {| world := w1; self := o |}).
    apply Hset.
  - intros. apply Hset.
Qed.

(** ** The parameter preflight of the constructor *)

Lemma bind_params_missing names (a : gmap string pyval) d :
  (exists p, p ∈ names /\ a !! p = None) ->
  exists pre q post,
    names = pre ++ q :: post /\
    Forall (fun x => is_Some (a !! x)) pre /\
    a !! q = None /\
    bind_params names a d = Err (MissingParameterError q).
Proof.
  revert d. induction names as [|n names IH]; intros d (p & Hin & Hp).
  - by apply elem_of_nil in Hin.
  - simpl. destruct (a !! n) as [v|] eqn:Hn.
    + destruct (IH (dict_set d n v)) as (pre & q & post & -> & Hpre & Hq & Hb).
      { exists p. split; [|done].
        apply elem_of_cons in Hin as [->|Hin]; [congruence|done]. }
      exists (n :: pre), q, post. split_and!; try done.
      apply Forall_cons. split; [by rewrite Hn|done].
    + exists [], n, names. by split_and!.
Qed.

Lemma dict_update_lookup_None (m : gmap string pyval) l k :
  dict_update m l !! k = None <-> m !! k = None /\ k ∉ keys l.
Proof.
  unfold dict_update, keys. revert m.
  induction l as [|[k' v] l IH]; intros m; simpl.
  - split; [intros ?; split; [done|apply not_elem_of_nil]|by intros [? _]].
  - rewrite IH, not_elem_of_cons, lookup_insert_None. simpl. split.
    + intros [[? ?] ?]. by split_and!.
    + intros [? [? ?]]. by split_and!.
Qed.

Lemma init_attrs_lookup_None h cosmo redshift mdef rsd seed params p :
  (init_attrs h cosmo redshift mdef rsd seed params !! p = None)
  ↔ (p ∉ reserved_attrs) ∧ (p ∉ keys params) ∧ (p ∉ cosmo_attrs cosmo).
Proof.
  unfold init_attrs, reserved_attrs, cosmo_attrs.
  rewrite !dict_update_lookup_None, !lookup_insert_None, lookup_empty.
  unfold keys. rewrite <- list_fmap_compose.
  rewrite !not_elem_of_cons. simpl.
  split.
  - intros [[[[[[[_ ?] ?] ?] ?] ?] ?] ?]. split_and!; try done.
    apply not_elem_of_nil.
  - intros [(? & ? & ? & ? & ? & _) [? ?]]. by split_and!.
Qed.

(** Closes a decidable goal by evaluation. *)
Ltac by_compute :=
  lazymatch goal with
  | |- ?P => apply (bool_decide_unpack P); vm_compute; exact I
  end.

(** C3, as amended: when a parameter declared by the model is absent
    from the attribute map of the catalog (it is no supplied parameter,
    none of the attributes the constructor stores itself and no
    [cosmo.] entry), construction fails with [MissingParameterError]
    naming the first declared parameter that is absent from the map,
    which is that parameter when it is the only one absent; nothing was
    logged, so no collective has run. *)
Theorem construction_missing_parameter
    (_makemodel : UserSuppliedHaloCatalog -> list (string * pyval) ->
                  gmap string pyval -> string -> Model)
    (w : World) (h : UserSuppliedHaloCatalog) (cosmo : list (string * pyval))
    (redshift : pyval) (mdef : string) (rsd : option pyval) (seed : option Z)
    (use_cache : bool) (params : list (string * pyval)) (p : string) :
  let attrs := init_attrs h cosmo redshift mdef rsd seed params in
  let model := _makemodel h cosmo attrs (get_halo_mass_key mdef) in
  p ∈ keys (param_dict model) ->
  p ∉ keys params ->
  p ∉ reserved_attrs ->
  p ∉ cosmo_attrs cosmo ->
  exists q pre post w',
    HODBase_init _makemodel w (IsHaloCatalog h) cosmo redshift mdef rsd seed
      use_cache params
    = (w', Err (MissingParameterError q)) /\
    keys (param_dict model) = pre ++ q :: post /\
    Forall (fun x => is_Some (attrs !! x)) pre /\
    attrs !! q = None /\
    events w' = events w /\
    ((forall x, x ∈ keys (param_dict model) -> attrs !! x = None -> x = p) ->
     q = p).
Proof.
  intros attrs0 model Hdecl Hpar Hres Hcos.
  assert (Hp : attrs0 !! p = None) by (by apply init_attrs_lookup_None).
  destruct (bind_params_missing (keys (param_dict model)) attrs0
              (param_dict model)) as (pre & q & post & Hk & Hpre & Hq & Hb).
  { exists p. split; assumption. }
  exists q, pre, post,
    (set_default_haloprop_list (colnames (halo_table h)) w).
  split_and!; try done.
  - unfold HODBase_init. subst model attrs0. cbv zeta. by rewrite Hb.
  - intros Honly. apply Honly; [|done].
    rewrite Hk. apply elem_of_app. right. left.
Qed.

Lemma construction_missing_parameter_witness :
  "logMmin" ∈ keys (param_dict
    (Demo.makemodel Demo.halos Demo.cosmology
       (init_attrs Demo.halos Demo.cosmology (PyInt 0) "vir" None None
          [("alpha", PyInt 2)]) (get_halo_mass_key "vir"))) /\
  ("logMmin" ∉ keys [("alpha", PyInt 2)]) /\
  ("logMmin" ∉ reserved_attrs) /\
  ("logMmin" ∉ cosmo_attrs Demo.cosmology) /\
  exists q pre post w',
    Demo.construct None [("alpha", PyInt 2)]
    = (w', Err (MissingParameterError q)) /\
    keys (param_dict
      (Demo.makemodel Demo.halos Demo.cosmology
         (init_attrs Demo.halos Demo.cosmology (PyInt 0) "vir" None None
            [("alpha", PyInt 2)]) (get_halo_mass_key "vir")))
    = pre ++ q :: post /\
    Forall (fun x => is_Some
              (init_attrs Demo.halos Demo.cosmology (PyInt 0) "vir" None None
                 [("alpha", PyInt 2)] !! x)) pre /\
    init_attrs Demo.halos Demo.cosmology (PyInt 0) "vir" None None
      [("alpha", PyInt 2)] !! q = None /\
    events w' = events Demo.world0 /\
    ((forall x,
         x ∈ keys (param_dict
           (Demo.makemodel Demo.halos Demo.cosmology
              (init_attrs Demo.halos Demo.cosmology (PyInt 0) "vir" None None
                 [("alpha", PyInt 2)]) (get_halo_mass_key "vir"))) ->
         init_attrs Demo.halos Demo.cosmology (PyInt 0) "vir" None None
           [("alpha", PyInt 2)] !! x = None ->
         x = "logMmin") ->
     q = "logMmin").
Proof.
  assert (H1 : "logMmin" ∈ keys (param_dict
    (Demo.makemodel Demo.halos Demo.cosmology
       (init_attrs Demo.halos Demo.cosmology (PyInt 0) "vir" None None
          [("alpha", PyInt 2)]) (get_halo_mass_key "vir")))) by by_compute.
  assert (H2 : "logMmin" ∉ keys [("alpha", PyInt 2)]) by by_compute.
  assert (H3 : "logMmin" ∉ reserved_attrs) by by_compute.
  assert (H4 : "logMmin" ∉ cosmo_attrs Demo.cosmology) by by_compute.
  split_and!; try done.
  apply (construction_missing_parameter Demo.makemodel Demo.world0 Demo.halos
           Demo.cosmology (PyInt 0) "vir" None None false
           [("alpha", PyInt 2)] "logMmin" H1 H2 H3 H4).
Defined.

(** C3 as stated fails: the model below declares a parameter called
    [seed], the supplied parameters do not hold it, and the
    construction succeeds, gather and scatter included; the parameter
    took the value of the seed attribute. *)
Lemma construction_accepts_parameter_named_seed :
  "seed" ∈ keys (param_dict
    (Demo.makemodel_seeded Demo.halos Demo.cosmology ∅ "halo_mvir")) /\
  ("seed" ∉ keys [("logMmin", PyInt 25)]) /\
  exists w o,
    HODBase_init Demo.makemodel_seeded Demo.world0 (IsHaloCatalog Demo.halos)
      Demo.cosmology (PyInt 0) "vir" None (Some 42%Z) false
      [("logMmin", PyInt 25)]
    = (w, Ok o) /\
    events w !! 0 = Some EvGather /\
    events w !! 4 = Some EvScatter /\
    dict_get (param_dict (_model o)) "seed" = Some (PyInt 42).
Proof.
  split; [by_compute|]. split; [by_compute|].
  exists (Demo.seeded.1),
    (match Demo.seeded.2 with Ok o => o | Err _ => Demo.blank end).
  split_and!; vm_compute; reflexivity.
Qed.

(** ** The derived columns *)

Lemma field_missing (a : StructArray) (n : string) :
  n ∉ (fields a).*1 -> field a n = Err (MissingColumnError n).
Proof.
  intros Hn. unfold field.
  destruct (list_find _ _) as [[j nd]|] eqn:Hf; [|done].
  apply list_find_Some in Hf as (Hj & <- & _).
  destruct Hn. apply list_elem_of_fmap. exists nd. split; [done|].
  by apply list_elem_of_lookup_2 in Hj.
Qed.

Lemma field_present (a : StructArray) (n : string) :
  n ∈ (fields a).*1 ->
  exists j, field a n = Ok (cell j <$> records a) /\ (fields a).*1 !! j = Some n.
Proof.
  intros Hn. unfold field.
  destruct (list_find _ _) as [[j nd]|] eqn:Hf.
  - apply list_find_Some in Hf as (Hj & <- & _).
    exists j. split; [done|]. by rewrite list_lookup_fmap, Hj.
  - apply list_find_None in Hf.
    apply list_elem_of_fmap in Hn as (nd & -> & Hnd).
    rewrite Forall_forall in Hf. by destruct (Hf nd Hnd).
Qed.

Lemma stack3_present (source : StructArray) (a b c : string) :
  a ∈ (fields source).*1 -> b ∈ (fields source).*1 ->
  c ∈ (fields source).*1 ->
  exists xs ys zs pos,
    field source a = Ok xs /\ field source b = Ok ys /\
    field source c = Ok zs /\
    stack3 source a b c = Ok pos /\
    length pos = array_len source /\
    forall i u v w,
      pos !! i = Some (u, v, w)
      <-> xs !! i = Some u /\ ys !! i = Some v /\ zs !! i = Some w.
Proof.
  intros (ja & Ha & _)%field_present (jb & Hb & _)%field_present
         (jc & Hc & _)%field_present.
  eexists _, _, _, _. split_and!; try done.
  - unfold stack3. rewrite Ha, Hb, Hc. done.
  - unfold vstack3_T, array_len. rewrite !length_zip, !length_fmap. lia.
  - intros i u v w. unfold vstack3_T.
    rewrite lookup_zip_Some. simpl. rewrite lookup_zip_Some. simpl.
    split; [by intros [[? ?] ?]|by intros (? & ? & ?)].
Qed.

Lemma stack3_missing (source : StructArray) (a b c n : string) :
  n ∈ [a; b; c] -> n ∉ (fields source).*1 ->
  exists n',
    n' ∈ [a; b; c] /\ (n' ∉ (fields source).*1) /\
    stack3 source a b c = Err (MissingColumnError n').
Proof.
  intros Hn Hmiss. unfold stack3.
  destruct (decide (a ∈ (fields source).*1)) as [Ha|Ha]; cycle 1.
  { exists a. rewrite (field_missing _ _ Ha). split_and!; try done. left. }
  destruct (field_present _ _ Ha) as (ja & -> & _). simpl.
  destruct (decide (b ∈ (fields source).*1)) as [Hb|Hb]; cycle 1.
  { exists b. rewrite (field_missing _ _ Hb). split_and!; try done.
    right. left. }
  destruct (field_present _ _ Hb) as (jb & -> & _). simpl.
  destruct (decide (c ∈ (fields source).*1)) as [Hc|Hc]; cycle 1.
  { exists c. rewrite (field_missing _ _ Hc). split_and!; try done.
    do 2 right. left. }
  destruct Hmiss.
  apply elem_of_cons in Hn as [->|Hn]; [done|].
  apply elem_of_cons in Hn as [->|Hn]; [done|].
  by apply list_elem_of_singleton in Hn as ->.
Qed.

(** C6: on a shard that has the fields x, y and z, [Position] returns
    one triple per row, in row order, the triple of row [i] being
    (x[i], y[i], z[i]); on a shard that lacks one of the three it fails
    with [MissingColumnError] naming a field that is absent.  The same
    holds for [Velocity] over vx, vy and vz. *)
Theorem Position_Velocity_columns (source : StructArray) :
  ("x" ∈ (fields source).*1 -> "y" ∈ (fields source).*1 ->
   "z" ∈ (fields source).*1 ->
   exists xs ys zs pos,
     field source "x" = Ok xs /\ field source "y" = Ok ys /\
     field source "z" = Ok zs /\
     Position source = Ok pos /\
     length pos = array_len source /\
     forall i a b c,
       pos !! i = Some (a, b, c)
       <-> xs !! i = Some a /\ ys !! i = Some b /\ zs !! i = Some c) /\
  (forall n, n ∈ ["x"; "y"; "z"] -> n ∉ (fields source).*1 ->
   exists n',
     n' ∈ ["x"; "y"; "z"] /\ (n' ∉ (fields source).*1) /\
     Position source = Err (MissingColumnError n')) /\
  ("vx" ∈ (fields source).*1 -> "vy" ∈ (fields source).*1 ->
   "vz" ∈ (fields source).*1 ->
   exists xs ys zs vel,
     field source "vx" = Ok xs /\ field source "vy" = Ok ys /\
     field source "vz" = Ok zs /\
     Velocity source = Ok vel /\
     length vel = array_len source /\
     forall i a b c,
       vel !! i = Some (a, b, c)
       <-> xs !! i = Some a /\ ys !! i = Some b /\ zs !! i = Some c) /\
  (forall n, n ∈ ["vx"; "vy"; "vz"] -> n ∉ (fields source).*1 ->
   exists n',
     n' ∈ ["vx"; "vy"; "vz"] /\ (n' ∉ (fields source).*1) /\
     Velocity source = Err (MissingColumnError n')).
Proof.
  split_and!.
  - apply (stack3_present source "x" "y" "z").
  - apply (stack3_missing source "x" "y" "z").
  - apply (stack3_present source "vx" "vy" "vz").
  - apply (stack3_missing source "vx" "vy" "vz").
Qed.

Lemma Position_Velocity_columns_witness :
  Position Demo.xyz
  = Ok [(VInt 1, VInt 3, VInt 5); (VInt 2, VInt 4, VInt 6)] /\
  (exists xs ys zs pos,
     field Demo.xyz "x" = Ok xs /\ field Demo.xyz "y" = Ok ys /\
     field Demo.xyz "z" = Ok zs /\
     Position Demo.xyz = Ok pos /\
     length pos = array_len Demo.xyz /\
     forall i a b c,
       pos !! i = Some (a, b, c)
       <-> xs !! i = Some a /\ ys !! i = Some b /\ zs !! i = Some c) /\
  Position Demo.xy = Err (MissingColumnError "z") /\
  (exists n',
     n' ∈ ["x"; "y"; "z"] /\ (n' ∉ (fields Demo.xy).*1) /\
     Position Demo.xy = Err (MissingColumnError n')).
Proof.
  split; [vm_compute; reflexivity|]. split.
  { apply (proj1 (Position_Velocity_columns Demo.xyz)); by_compute. }
  split; [vm_compute; reflexivity|].
  apply (proj1 (proj2 (Position_Velocity_columns Demo.xy)) "z"); by_compute.
Defined.

(** Reduces the projections of the records of the state. *)
Tactic Notation "fields_cbn" "in" hyp(H) :=
  cbn [self world with_param_dict set_model set_attr set_param_dict
       set_halo_table Array_init _model mock mass attrs _halos use_cache
       param_dict transform galaxy_table mock_halo_table _source generation
       events default_haloprop_list_inherited_by_mock halo_table
       halo_tables_others Lbox fst snd] in H.
Tactic Notation "fields_cbn" :=
  cbn [self world with_param_dict set_model set_attr set_param_dict
       set_halo_table Array_init _model mock mass attrs _halos use_cache
       param_dict transform galaxy_table mock_halo_table _source generation
       events default_haloprop_list_inherited_by_mock halo_table
       halo_tables_others Lbox fst snd].

Lemma repopulate_success seed params p p' :
  repopulate seed params p = (p', Ok tt) ->
  exists mk g,
    mock (_model (self p)) = Some mk /\
    transform (_model (self p)) (mock_halo_table mk)
      (write_params (param_dict (_model (self p))) params)
      (mass (self p)) 1 (seed_value seed) = Ok g /\
    _source (self p')
    = ScatterArray (as_array (remove_object_dtypes g))
        (comm_size (_halos (self p))) /\
    events (world p')
    = events (world p) ++ [EvTransform (mock_halo_table mk); EvNormalize g;
                           EvScatter] /\
    generation (self p') = S (generation (self p)) /\
    mock (_model (self p'))
    = Some {| mock_halo_table := mock_halo_table mk; galaxy_table := None |}.
Proof.
  intros Hrun.
  destruct (decide (Forall (fun kv => known_by p kv.1) params)) as [Hk|Hk].
  2:{ apply not_Forall_Exists in Hk; [|apply _].
      apply Exists_exists in Hk as ([k v] & Hin & Hn).
      destruct (first_unknown (known_by p) params)
        as (pre & name & x & post & -> & Hpre & Hbad).
      { exists k. split; [|done]. unfold keys.
        apply list_elem_of_fmap. by exists (k, v). }
      by rewrite repopulate_unknown in Hrun. }
  unfold repopulate in Hrun.
  unfold seq_prog at 1, update_self at 1, modify in Hrun.
  unfold seq_prog at 1 in Hrun.
  rewrite update_params_known in Hrun by done.
  unfold seq_prog at 1, gets in Hrun. fields_cbn in Hrun.
  destruct (mock (_model (self p))) as [mk|] eqn:Hmock; [|done].
  unfold seq_prog at 1, log at 1, modify in Hrun.
  unfold seq_prog at 1, lift, mock_populate, get_attr in Hrun.
  fields_cbn in Hrun. rewrite Hmock, lookup_insert_eq in Hrun.
  cbn [default id] in Hrun.
  destruct (transform _ _ _ _ _ _) as [g|e] eqn:Hg; [|done].
  cbn [bind] in Hrun.
  unfold seq_prog at 1, update_self at 1, modify in Hrun.
  unfold seq_prog at 1, take_galaxy_table in Hrun.
  unfold seq_prog at 1, gets in Hrun. fields_cbn in Hrun.
  unfold seq_prog at 1, log at 1, modify in Hrun.
  unfold seq_prog at 1, update_self at 1, modify, ret in Hrun.
  fields_cbn in Hrun.
  unfold seq_prog at 1 in Hrun.
  destruct (_log_populated_stats _ _) as [[]|e]; [|done].
  unfold seq_prog at 1, log, update_self, modify in Hrun.
  fields_cbn in Hrun.
  injection Hrun as <-. exists mk, g. fields_cbn.
  split_and!; try done.
  by rewrite <- !app_assoc.
Qed.

Lemma _makesource_success p p' data :
  _makesource p = (p', Ok data) ->
  let h := _halos (self p) in
  let t := Table_of_array
             (GatherArray (as_array (halo_table h))
                (as_array <$> halo_tables_others h)) in
  let ht := remove_object_dtypes t in
  exists g,
    transform (_model (self p)) ht (param_dict (_model (self p)))
      (mass (self p)) 1 (get_attr (self p) "seed") = Ok g /\
    data = ScatterArray (as_array (remove_object_dtypes g)) (comm_size h) /\
    events (world p')
    = events (world p) ++ [EvGather; EvNormalize t; EvTransform ht;
                           EvNormalize g; EvScatter] /\
    mock (_model (self p'))
    = Some {| mock_halo_table := ht; galaxy_table := None |} /\
    param_dict (_model (self p')) = param_dict (_model (self p)) /\
    halo_table (_halos (self p')) = ht /\
    generation (self p') = generation (self p) /\
    attrs (self p') = attrs (self p).
Proof.
  intros Hrun h t ht. unfold _makesource in Hrun.
  unfold seq_prog at 1, gets in Hrun. cbv zeta in Hrun.
  unfold seq_prog at 1, log at 1, modify in Hrun.
  unfold seq_prog at 1, log at 1, modify in Hrun.
  unfold seq_prog at 1, update_self at 1, modify in Hrun.
  unfold seq_prog at 1, gets in Hrun. fields_cbn in Hrun.
  unfold seq_prog at 1, log at 1, modify in Hrun.
  unfold seq_prog at 1, lift, populate_mock, get_attr in Hrun.
  fields_cbn in Hrun. fold h t ht in Hrun.
  destruct (transform _ _ _ _ _ _) as [g|e] eqn:Hg; [|done].
  cbn [bind] in Hrun.
  unfold seq_prog at 1, update_self at 1, modify in Hrun.
  unfold seq_prog at 1, take_galaxy_table in Hrun.
  unfold seq_prog at 1, gets in Hrun. fields_cbn in Hrun.
  unfold seq_prog at 1, log at 1, modify in Hrun.
  unfold seq_prog at 1, update_self at 1, modify, ret in Hrun.
  fields_cbn in Hrun.
  unfold seq_prog at 1 in Hrun.
  destruct (_log_populated_stats _ _) as [[]|e]; [|done].
  unfold seq_prog at 1, log, modify in Hrun.
  fields_cbn in Hrun.
  injection Hrun as <- <-. exists g. fields_cbn.
  split_and!; try done.
  by rewrite <- !app_assoc.
Qed.

Lemma HODBase_init_success
    (_makemodel : UserSuppliedHaloCatalog -> list (string * pyval) ->
                  gmap string pyval -> string -> Model)
    w h cosmo redshift mdef rsd seed use_cache params w' o :
  HODBase_init _makemodel w (IsHaloCatalog h) cosmo redshift mdef rsd seed
    use_cache params = (w', Ok o) ->
  let attrs0 := init_attrs h cosmo redshift mdef rsd seed params in
  let model := _makemodel h cosmo attrs0 (get_halo_mass_key mdef) in
  let t := Table_of_array
             (GatherArray (as_array (halo_table h))
                (as_array <$> halo_tables_others h)) in
  let ht := remove_object_dtypes t in
  exists d g,
    bind_params (keys (param_dict model)) attrs0 (param_dict model) = Ok d /\
    transform model ht d (get_halo_mass_key mdef) 1
      (default PyNone (attrs0 !! "seed")) = Ok g /\
    _source o = ScatterArray (as_array (remove_object_dtypes g)) (comm_size h) /\
    events w'
    = events w ++ [EvGather; EvNormalize t; EvTransform ht; EvNormalize g;
                   EvScatter] /\
    mock (_model o) = Some {| mock_halo_table := ht; galaxy_table := None |} /\
    0 < csize o /\
    generation o = 1.
Proof.
  intros Hrun attrs0 model t ht. unfold HODBase_init in Hrun.
  cbv zeta in Hrun. fold attrs0 model in Hrun.
  destruct (bind_params _ _ _) as [d|e] eqn:Hd; [|done].
  destruct (_makesource _) as [p1 [data|e]] eqn:Hms; [|done].
  apply _makesource_success in Hms as (g & Hg & -> & Hev & Hmock & _ & _ & Hgen & _).
  cbv zeta in Hg, Hev, Hmock. revert Hg Hev Hmock Hgen. fields_cbn.
  fold t ht. intros Hg Hev Hmock Hgen.
  case_decide as Hsz; [done|].
  injection Hrun as <- <-. exists d, g. fields_cbn.
  unfold csize in *. fields_cbn in Hsz. fields_cbn.
  split_and!; try done; [lia|by rewrite Hgen].
Qed.

(** ** Where the normalization runs *)

Lemma astype_U_width (c : Column) :
  exists w,
    col_dtype (astype_U c) = DUnicode w /\
    col_data (astype_U c) = astype_U_cell <$> col_data c /\
    Forall (fun v => text_width v ≤ w) (col_data (astype_U c)) /\
    0 < w /\
    (w = 1 \/ exists v, v ∈ col_data (astype_U c) /\ text_width v = w).
Proof.
  eexists. split_and!; [done..| | |]; simpl.
  - apply Forall_forall. intros v Hv.
    etrans; [|apply Nat.le_max_r].
    apply max_list_elem_of_le. by apply list_elem_of_fmap_2.
  - lia.
  - set (cells := astype_U_cell <$> col_data c).
    destruct (decide (max_list (text_width <$> cells) ≤ 1)) as [Hle|Hgt].
    { left. lia. }
    right.
    assert (Hne : text_width <$> cells <> []).
    { intros Hnil. rewrite Hnil in Hgt. simpl in Hgt. lia. }
    apply max_list_elem_of, list_elem_of_fmap in Hne as (v & Hv & Hin).
    exists v. split; [done|]. lia.
Qed.

Lemma _makesource_calls (p : Process) :
  let h := _halos (self p) in
  let t := Table_of_array
             (GatherArray (as_array (halo_table h))
                (as_array <$> halo_tables_others h)) in
  let ht := remove_object_dtypes t in
  events (world (_makesource p).1)
  = events (world p) ++ [EvGather; EvNormalize t; EvTransform ht] \/
  exists g,
    transform (_model (self p)) ht (param_dict (_model (self p)))
      (mass (self p)) 1 (get_attr (self p) "seed") = Ok g /\
    (events (world (_makesource p).1)
     = events (world p) ++ [EvGather; EvNormalize t; EvTransform ht;
                            EvNormalize g] \/
     events (world (_makesource p).1)
     = events (world p) ++ [EvGather; EvNormalize t; EvTransform ht;
                            EvNormalize g; EvScatter]).
Proof.
  intros h t ht.
  destruct (_makesource p) as [p' r] eqn:Hrun. unfold _makesource in Hrun.
  unfold seq_prog at 1, gets in Hrun. cbv zeta in Hrun.
  unfold seq_prog at 1, log at 1, modify in Hrun.
  unfold seq_prog at 1, log at 1, modify in Hrun.
  unfold seq_prog at 1, update_self at 1, modify in Hrun.
  unfold seq_prog at 1, gets in Hrun. fields_cbn in Hrun.
  unfold seq_prog at 1, log at 1, modify in Hrun.
  unfold seq_prog at 1, lift, populate_mock, get_attr in Hrun.
  fields_cbn in Hrun. fold h t ht in Hrun.
  unfold get_attr.
  destruct (transform _ _ _ _ _ _) as [g|e] eqn:Hg.
  2:{ cbn [bind] in Hrun. injection Hrun as <- <-. fields_cbn.
      left. by rewrite <- !app_assoc. }
  cbn [bind] in Hrun.
  unfold seq_prog at 1, update_self at 1, modify in Hrun.
  unfold seq_prog at 1, take_galaxy_table in Hrun.
  unfold seq_prog at 1, gets in Hrun. fields_cbn in Hrun.
  unfold seq_prog at 1, log at 1, modify in Hrun.
  unfold seq_prog at 1, update_self at 1, modify, ret in Hrun.
  fields_cbn in Hrun.
  unfold seq_prog at 1 in Hrun.
  right. exists g. split; [done|].
  destruct (_log_populated_stats _ _) as [[]|e].
  2:{ injection Hrun as <- <-. fields_cbn. left. by rewrite <- !app_assoc. }
  unfold seq_prog at 1, log, modify in Hrun.
  fields_cbn in Hrun.
  injection Hrun as <- <-. fields_cbn. right. by rewrite <- !app_assoc.
Qed.

Lemma HODBase_init_calls
    (_makemodel : UserSuppliedHaloCatalog -> list (string * pyval) ->
                  gmap string pyval -> string -> Model)
    w h cosmo redshift mdef rsd seed use_cache params :
  construction_calls _makemodel w h cosmo redshift mdef rsd seed params
    (HODBase_init _makemodel w (IsHaloCatalog h) cosmo redshift mdef rsd seed
       use_cache params).1.
Proof.
  unfold construction_calls, HODBase_init. cbv zeta.
  set (attrs0 := init_attrs _ _ _ _ _ _ _).
  set (model := _makemodel _ _ _ _).
  destruct (bind_params _ _ _) as [d|e] eqn:Hd; [|by left].
  right. exists d. split; [done|].
  match goal with
  | |- context [_makesource ?p0] =>
      pose proof (_makesource_calls p0) as Hcalls
  end.
  cbv zeta in Hcalls. revert Hcalls. unfold get_attr. fields_cbn.
  destruct (_makesource _) as [p1 [data|e]]; fields_cbn.
  - intros Hcalls. by case_decide.
  - done.
Qed.

Lemma repopulate_calls seed params p :
  repopulation_calls seed params p (repopulate seed params p).1.
Proof.
  destruct (repopulate seed params p) as [p' r] eqn:Hrun.
  unfold repopulation_calls. fields_cbn.
  destruct (decide (Forall (fun kv => known_by p kv.1) params)) as [Hk|Hk].
  2:{ apply not_Forall_Exists in Hk; [|apply _].
      apply Exists_exists in Hk as ([k v] & Hin & Hn).
      destruct (first_unknown (known_by p) params)
        as (pre & name & x & post & -> & Hpre & Hbad).
      { exists k. split; [|done]. unfold keys.
        apply list_elem_of_fmap. by exists (k, v). }
      rewrite repopulate_unknown in Hrun by done.
      injection Hrun as <- <-. by left. }
  unfold repopulate in Hrun.
  unfold seq_prog at 1, update_self at 1, modify in Hrun.
  unfold seq_prog at 1 in Hrun.
  rewrite update_params_known in Hrun by done.
  unfold seq_prog at 1, gets in Hrun. fields_cbn in Hrun.
  destruct (mock (_model (self p))) as [mk|] eqn:Hmock.
  2:{ unfold raise in Hrun. injection Hrun as <- <-. by left. }
  right. exists mk. split; [done|].
  unfold seq_prog at 1, log at 1, modify in Hrun.
  unfold seq_prog at 1, lift, mock_populate, get_attr in Hrun.
  fields_cbn in Hrun. rewrite Hmock, lookup_insert_eq in Hrun.
  cbn [default id] in Hrun.
  destruct (transform _ _ _ _ _ _) as [g|e] eqn:Hg.
  2:{ cbn [bind] in Hrun. injection Hrun as <- <-. by left. }
  cbn [bind] in Hrun.
  unfold seq_prog at 1, update_self at 1, modify in Hrun.
  unfold seq_prog at 1, take_galaxy_table in Hrun.
  unfold seq_prog at 1, gets in Hrun. fields_cbn in Hrun.
  unfold seq_prog at 1, log at 1, modify in Hrun.
  unfold seq_prog at 1, update_self at 1, modify, ret in Hrun.
  fields_cbn in Hrun.
  unfold seq_prog at 1 in Hrun.
  right. exists g. split; [done|].
  destruct (_log_populated_stats _ _) as [[]|e].
  2:{ injection Hrun as <- <-. fields_cbn. left. by rewrite <- app_assoc. }
  unfold seq_prog at 1, log, update_self, modify in Hrun.
  fields_cbn in Hrun.
  injection Hrun as <- <-. fields_cbn. right. by rewrite <- !app_assoc.
Qed.

(** C7, as amended: [remove_object_dtypes] turns every object column
    of a table into a text column of fixed width, each cell into the
    text of its object, the width being that of the longest text (1
    when no text has a character), and leaves the other columns as
    they are.  A construction gathers, normalizes the gathered table,
    hands the normalized table to the transform, normalizes what the
    transform returns and scatters that; a construction that fails
    stops somewhere along this way.  A repopulation does not gather
    and normalizes nothing before the transform: the transform gets
    the halo table the mock already holds, the one normalized at
    construction; only what the transform returns is normalized, and
    scattered; a repopulation that fails stops somewhere along this
    way. *)
Theorem normalization_of_object_columns :
  (forall t,
      NoDup (colnames t) ->
      remove_object_dtypes t
      = (fun nc => (nc.1, normalize_column nc.2)) <$> t) /\
  (forall c,
      col_dtype c = DObject ->
      exists w,
        col_dtype (normalize_column c) = DUnicode w /\
        col_data (normalize_column c) = astype_U_cell <$> col_data c /\
        Forall (fun v => text_width v ≤ w) (col_data (normalize_column c)) /\
        0 < w /\
        (w = 1 \/
         exists v, v ∈ col_data (normalize_column c) /\ text_width v = w)) /\
  (forall o, astype_U_cell (VObj o) = VText (py_str o)) /\
  (forall c, col_dtype c <> DObject -> normalize_column c = c) /\
  (forall _makemodel w h cosmo redshift mdef rsd seed use_cache params w' o,
      HODBase_init _makemodel w (IsHaloCatalog h) cosmo redshift mdef rsd seed
        use_cache params = (w', Ok o) ->
      construction_cycle _makemodel w h cosmo redshift mdef rsd seed params
        w' o) /\
  (forall seed params p p',
      repopulate seed params p = (p', Ok tt) ->
      repopulation_cycle seed params p p') /\
  (forall _makemodel w h cosmo redshift mdef rsd seed use_cache params,
      construction_calls _makemodel w h cosmo redshift mdef rsd seed params
        (HODBase_init _makemodel w (IsHaloCatalog h) cosmo redshift mdef rsd
           seed use_cache params).1) /\
  (forall seed params p,
      repopulation_calls seed params p (repopulate seed params p).1).
Proof.
  split_and!; [| | | | | |apply HODBase_init_calls|apply repopulate_calls].
  - apply remove_object_dtypes_columns.
  - intros c Hc. unfold normalize_column. rewrite decide_True by done.
    apply astype_U_width.
  - done.
  - intros c Hc. unfold normalize_column. by rewrite decide_False.
  - intros mk w h cosmo redshift mdef rsd seed use_cache params w' o Hrun.
    apply HODBase_init_success in Hrun
      as (d & g & Hd & Hg & Hsrc & Hev & Hmock & _).
    exists d, g. cbv zeta. by split_and!.
  - intros seed params p p' Hrun.
    apply repopulate_success in Hrun
      as (mk & g & Hmock & Hg & Hsrc & Hev & _ & Hmock').
    exists mk, g. by split_and!.
Qed.

Lemma normalization_of_object_columns_witness :
  (NoDup (colnames Demo.halos_rank0) /\
   remove_object_dtypes Demo.halos_rank0
   = (fun nc => (nc.1, normalize_column nc.2)) <$> Demo.halos_rank0) /\
  (Demo.construct (Some 42%Z) [("logMmin", PyInt 25); ("alpha", PyInt 2)]
   = (world Demo.populated, Ok (self Demo.populated)) /\
   construction_cycle Demo.makemodel Demo.world0 Demo.halos Demo.cosmology
     (PyInt 0) "vir" None (Some 42%Z)
     [("logMmin", PyInt 25); ("alpha", PyInt 2)]
     (world Demo.populated) (self Demo.populated)) /\
  (repopulate (Some 7%Z) [("logMmin", PyInt 15)] Demo.populated
   = (Demo.repopulated, Ok tt) /\
   repopulation_cycle (Some 7%Z) [("logMmin", PyInt 15)] Demo.populated
     Demo.repopulated).
Proof.
  assert (H1 : NoDup (colnames Demo.halos_rank0)) by by_compute.
  assert (H2 : Demo.construct (Some 42%Z)
                 [("logMmin", PyInt 25); ("alpha", PyInt 2)]
               = (world Demo.populated, Ok (self Demo.populated)))
    by (vm_compute; reflexivity).
  assert (H3 : repopulate (Some 7%Z) [("logMmin", PyInt 15)] Demo.populated
               = (Demo.repopulated, Ok tt))
    by (vm_compute; reflexivity).
  destruct normalization_of_object_columns as (N1 & _ & _ & _ & N5 & N6 & _).
  split_and!; [exact H1|exact (N1 _ H1)|exact H2| |exact H3|exact (N6 _ _ _ _ H3)].
  exact (N5 Demo.makemodel Demo.world0 Demo.halos Demo.cosmology (PyInt 0)
           "vir" None (Some 42%Z) false
           [("logMmin", PyInt 25); ("alpha", PyInt 2)] _ _ H2).
Defined.

(** C7 as stated fails for repopulation: the cycle below succeeds and
    calls, in this order, the transform on the halo table of the mock,
    the normalization on what the transform returned, and scatter;
    there is no gather and no normalization before the transform. *)
Lemma repopulate_normalizes_output_only :
  exists p' mk g,
    repopulate (Some 7%Z) [("logMmin", PyInt 15)] Demo.populated
    = (p', Ok tt) /\
    mock (_model (self Demo.populated)) = Some mk /\
    events (world p')
    = events (world Demo.populated)
      ++ [EvTransform (mock_halo_table mk); EvNormalize g; EvScatter].
Proof.
  assert (H : repopulate (Some 7%Z) [("logMmin", PyInt 15)] Demo.populated
              = (Demo.repopulated, Ok tt))
    by (vm_compute; reflexivity).
  destruct (repopulate_success _ _ _ _ H)
    as (mk & g & Hmock & _ & _ & Hev & _).
  exists Demo.repopulated, mk, g. split; [exact H|]. split; [exact Hmock|exact Hev].
Qed.

(** ** The catalog after a repopulation that yields no rows *)

(** C1: the constructor fails with [EmptyResultError] when the
    population yields no rows; [repopulate] does not: with a mass
    threshold no halo reaches, the call on the populated catalog
    returns normally, installs empty shards on every rank and bumps
    the generation. *)
Theorem repopulate_installs_empty_catalog :
  0 < csize (self Demo.populated) /\
  repopulate None [("logMmin", PyInt 99)] Demo.populated
  = (Demo.emptied, Ok tt) /\
  csize (self Demo.emptied) = 0 /\
  generation (self Demo.emptied) = S (generation (self Demo.populated)) /\
  (Demo.construct None [("logMmin", PyInt 99); ("alpha", PyInt 2)]).2
  = Err EmptyResultError.
Proof.
  split_and!; [by_compute|vm_compute; reflexivity..].
Qed.

(** A construction that succeeds leaves a catalog with rows: the
    constructor fails with [EmptyResultError] otherwise. *)
Theorem construction_never_empty
    (_makemodel : UserSuppliedHaloCatalog -> list (string * pyval) ->
                  gmap string pyval -> string -> Model)
    (w : World) (h : UserSuppliedHaloCatalog) (cosmo : list (string * pyval))
    (redshift : pyval) (mdef : string) (rsd : option pyval) (seed : option Z)
    (use_cache : bool) (params : list (string * pyval)) (w' : World)
    (o : HODBase) :
  HODBase_init _makemodel w (IsHaloCatalog h) cosmo redshift mdef rsd seed
    use_cache params = (w', Ok o) ->
  0 < csize o /\ generation o = 1.
Proof.
  intros Hrun.
  apply HODBase_init_success in Hrun as (d & g & _ & _ & _ & _ & _ & Hsz & Hgen).
  by split.
Qed.

Lemma construction_never_empty_witness :
  Demo.construct (Some 42%Z) [("logMmin", PyInt 25); ("alpha", PyInt 2)]
  = (world Demo.populated, Ok (self Demo.populated)) /\
  0 < csize (self Demo.populated) /\ generation (self Demo.populated) = 1.
Proof.
  assert (H : Demo.construct (Some 42%Z)
                [("logMmin", PyInt 25); ("alpha", PyInt 2)]
              = (world Demo.populated, Ok (self Demo.populated)))
    by (vm_compute; reflexivity).
  split; [exact H|].
  exact (construction_never_empty Demo.makemodel Demo.world0 Demo.halos
           Demo.cosmology (PyInt 0) "vir" None (Some 42%Z) false
           [("logMmin", PyInt 25); ("alpha", PyInt 2)] _ _ H).
Defined.

(** * Further properties *)

(** ** More on [remove_object_dtypes] *)

Lemma dict_get_Some_elem {V} (d : list (string * V)) k v :
  dict_get d k = Some v -> (k, v) ∈ d.
Proof.
  induction d as [|[k' v'] d IH]; simpl; [done|].
  case_decide as Hk.
  - intros [= ->]. subst. left.
  - intros H. right. by apply IH.
Qed.

Lemma dict_get_dict_set {V} (d : list (string * V)) k v k' :
  dict_get (dict_set d k v) k'
  = if decide (k = k') then Some v else dict_get d k'.
Proof.
  induction d as [|[k0 v0] d IH]; simpl.
  - by repeat case_decide.
  - destruct (decide (k0 = k)) as [->|Hk0]; simpl.
    + by repeat case_decide.
    + rewrite IH. repeat case_decide; congruence.
Qed.

Lemma remove_object_dtypes_step_keys (d : Table) (col : string) :
  colnames (remove_object_dtypes_step d col) = colnames d.
Proof.
  unfold remove_object_dtypes_step, table_set.
  destruct (dict_get d col) as [c|] eqn:Hc; [|done].
  case_decide; [|done].
  apply keys_dict_set. apply dec_stable. intros Hn.
  apply dict_get_None in Hn. congruence.
Qed.

Lemma remove_object_dtypes_step_len (d : Table) (col : string) :
  table_len (remove_object_dtypes_step d col) = table_len d.
Proof.
  unfold remove_object_dtypes_step, table_set.
  destruct (dict_get d col) as [c|] eqn:Hc; [|done].
  case_decide; [|done].
  destruct d as [|[k0 c0] d]; [done|]. simpl in *.
  case_decide; simpl; [|done].
  injection Hc as <-. by rewrite length_fmap.
Qed.

Lemma normalize_column_not_object (c : Column) :
  col_dtype (normalize_column c) <> DObject.
Proof. unfold normalize_column. by case_decide. Qed.

Lemma normalize_column_length (c : Column) :
  length (col_data (normalize_column c)) = length (col_data c).
Proof.
  unfold normalize_column. case_decide; [|done]. simpl. by rewrite length_fmap.
Qed.

(** [remove_object_dtypes] keeps the names of the columns and their
    order, and the number of rows of the table; on a table whose
    column names are all different it keeps the length of every
    column and leaves no object column. *)
Theorem remove_object_dtypes_keeps_shape (t : Table) :
  colnames (remove_object_dtypes t) = colnames t /\
  table_len (remove_object_dtypes t) = table_len t /\
  (NoDup (colnames t) ->
   Forall (fun nc => col_dtype nc.2 <> DObject) (remove_object_dtypes t) /\
   forall j n c,
     t !! j = Some (n, c) ->
     exists c',
       remove_object_dtypes t !! j = Some (n, c') /\
       length (col_data c') = length (col_data c)).
Proof.
  assert (Hfold : forall (l : list string) (d : Table),
             colnames (foldl remove_object_dtypes_step d l) = colnames d /\
             table_len (foldl remove_object_dtypes_step d l) = table_len d).
  { induction l as [|col l IH]; intros d; [done|]. simpl.
    destruct (IH (remove_object_dtypes_step d col)) as [-> ->].
    by rewrite remove_object_dtypes_step_keys, remove_object_dtypes_step_len. }
  split_and!; try apply Hfold.
  intros Hnd. rewrite remove_object_dtypes_columns by done. split.
  - apply Forall_fmap, Forall_forall. intros [n c] _. simpl.
    apply normalize_column_not_object.
  - intros j n c Hj. exists (normalize_column c).
    rewrite list_lookup_fmap, Hj. split; [done|].
    apply normalize_column_length.
Qed.

Lemma remove_object_dtypes_keeps_shape_witness :
  NoDup (colnames Demo.halos_rank0) /\
  Forall (fun nc => col_dtype nc.2 <> DObject)
    (remove_object_dtypes Demo.halos_rank0) /\
  forall j n c,
    Demo.halos_rank0 !! j = Some (n, c) ->
    exists c',
      remove_object_dtypes Demo.halos_rank0 !! j = Some (n, c') /\
      length (col_data c') = length (col_data c).
Proof.
  assert (H : NoDup (colnames Demo.halos_rank0)) by by_compute.
  split; [exact H|].
  exact (proj2 (proj2 (remove_object_dtypes_keeps_shape Demo.halos_rank0)) H).
Defined.

(** Normalizing twice is normalizing once, on a table whose column
    names are all different. *)
Theorem remove_object_dtypes_idempotent (t : Table) :
  NoDup (colnames t) ->
  remove_object_dtypes (remove_object_dtypes t) = remove_object_dtypes t.
Proof.
  intros Hnd.
  rewrite (remove_object_dtypes_columns (remove_object_dtypes t)).
  - rewrite (remove_object_dtypes_columns t Hnd).
    rewrite <- list_fmap_compose. apply list_fmap_ext.
    intros _ [n c] _. simpl. f_equal.
    unfold normalize_column at 1.
    rewrite decide_False; [done|apply normalize_column_not_object].
  - by rewrite (proj1 (remove_object_dtypes_keeps_shape t)).
Qed.

Lemma remove_object_dtypes_idempotent_witness :
  NoDup (colnames Demo.halos_rank0) /\
  remove_object_dtypes (remove_object_dtypes Demo.halos_rank0)
  = remove_object_dtypes Demo.halos_rank0.
Proof.
  assert (H : NoDup (colnames Demo.halos_rank0)) by by_compute.
  split; [exact H|exact (remove_object_dtypes_idempotent _ H)].
Defined.

(** A table without object columns comes back as it is, whether or
    not its column names are all different. *)
Theorem remove_object_dtypes_no_objects (t : Table) :
  Forall (fun nc => col_dtype nc.2 <> DObject) t ->
  remove_object_dtypes t = t.
Proof.
  intros Hno. unfold remove_object_dtypes.
  generalize (colnames t) as l.
  induction l as [|col l IH]; [done|]. simpl.
  replace (remove_object_dtypes_step t col) with t; [done|].
  unfold remove_object_dtypes_step.
  destruct (dict_get t col) as [c|] eqn:Hc; [|done].
  rewrite decide_False; [done|].
  apply dict_get_Some_elem in Hc.
  rewrite Forall_forall in Hno. apply (Hno _ Hc).
Qed.

Lemma remove_object_dtypes_no_objects_witness :
  Forall (fun nc => col_dtype nc.2 <> DObject)
    [("x", Demo.ints [1; 2]%Z); ("x", Demo.ints [3; 4]%Z)] /\
  remove_object_dtypes [("x", Demo.ints [1; 2]%Z); ("x", Demo.ints [3; 4]%Z)]
  = [("x", Demo.ints [1; 2]%Z); ("x", Demo.ints [3; 4]%Z)].
Proof.
  assert (H : Forall (fun nc : string * Column => col_dtype nc.2 <> DObject)
                [("x", Demo.ints [1; 2]%Z); ("x", Demo.ints [3; 4]%Z)]).
  { repeat constructor; simpl; discriminate. }
  split; [exact H|exact (remove_object_dtypes_no_objects _ H)].
Defined.

(** ** More on the constructor *)

Lemma bind_params_Ok names (a : gmap string pyval) d d' :
  bind_params names a d = Ok d' ->
  (forall n, n ∈ names -> dict_get d' n = a !! n /\ is_Some (a !! n)) /\
  (forall n, n ∉ names -> dict_get d' n = dict_get d n) /\
  (names ⊆ keys d -> keys d' = keys d).
Proof.
  revert d. induction names as [|m names IH]; intros d Hb; simpl in Hb.
  - injection Hb as <-. split_and!; [|done..].
    by intros n ?%elem_of_nil.
  - destruct (a !! m) as [v|] eqn:Hm; [|done].
    destruct (IH _ Hb) as (Hin & Hout & Hkeys). split_and!.
    + intros n Hn. destruct (decide (n ∈ names)) as [Hn'|Hn'].
      { by apply Hin. }
      apply elem_of_cons in Hn as [->|Hn]; [|done].
      rewrite (Hout m Hn'), dict_get_dict_set, decide_True by done.
      by rewrite Hm.
    + intros n Hn. apply not_elem_of_cons in Hn as [Hne Hn].
      rewrite (Hout n Hn), dict_get_dict_set. by rewrite decide_False.
    + intros Hsub.
      assert (Hmk : m ∈ keys d) by (apply Hsub; left).
      rewrite Hkeys; [by apply keys_dict_set|].
      rewrite keys_dict_set by done.
      intros x Hx. apply Hsub. by right.
Qed.

Lemma _makesource_keeps_rest :
  preserves (fun s => (halo_tables_others (_halos (self s)), Lbox (_halos (self s)),
                       mass (self s), radius (self s), cosmo (self s)))
    _makesource.
Proof. unfold _makesource. preserves_tac. Qed.

Lemma HODBase_init_state
    (_makemodel : UserSuppliedHaloCatalog -> list (string * pyval) ->
                  gmap string pyval -> string -> Model)
    w h cosmo0 redshift mdef rsd seed cache params w' o :
  HODBase_init _makemodel w (IsHaloCatalog h) cosmo0 redshift mdef rsd seed
    cache params = (w', Ok o) ->
  let attrs0 := init_attrs h cosmo0 redshift mdef rsd seed params in
  let model := _makemodel h cosmo0 attrs0 (get_halo_mass_key mdef) in
  exists d,
    bind_params (keys (param_dict model)) attrs0 (param_dict model) = Ok d /\
    param_dict (_model o) = d /\
    attrs o = attrs0 /\
    halo_table (_halos o)
    = remove_object_dtypes
        (Table_of_array
           (GatherArray (as_array (halo_table h))
              (as_array <$> halo_tables_others h))) /\
    halo_tables_others (_halos o) = halo_tables_others h /\
    Lbox (_halos o) = Lbox h /\
    mass o = get_halo_mass_key mdef /\
    radius o = get_halo_boundary_key mdef /\
    cosmo o = cosmo0 /\
    use_cache o = cache.
Proof.
  intros Hrun attrs0 model. unfold HODBase_init in Hrun.
  cbv zeta in Hrun. fold attrs0 model in Hrun.
  destruct (bind_params _ _ _) as [d|e] eqn:Hd; [|done].
  match type of Hrun with
  | context [_makesource ?p0] =>
      pose proof (_makesource_keeps_rest p0) as Hrest
  end.
  destruct (_makesource _) as [p1 [data|e]] eqn:Hms; [|done].
  apply _makesource_success in Hms
    as (g & _ & _ & _ & _ & Hpd & Hht & _ & Hattrs).
  cbv zeta in Hpd, Hht, Hattrs. revert Hpd Hht Hattrs Hrest. fields_cbn.
  intros Hpd Hht Hattrs [= Ho Hl Hm Hr Hc].
  case_decide; [done|]. injection Hrun as <- <-. exists d. fields_cbn.
  by split_and!.
Qed.

(** After a successful construction the parameter store of the model
    has the names the model declared, in their order, and holds for
    each of them the value the attributes of the catalog hold for
    it. *)
Theorem construction_binds_parameters
    (_makemodel : UserSuppliedHaloCatalog -> list (string * pyval) ->
                  gmap string pyval -> string -> Model)
    (w : World) (h : UserSuppliedHaloCatalog) (cosmo0 : list (string * pyval))
    (redshift : pyval) (mdef : string) (rsd : option pyval) (seed : option Z)
    (cache : bool) (params : list (string * pyval)) (w' : World) (o : HODBase) :
  HODBase_init _makemodel w (IsHaloCatalog h) cosmo0 redshift mdef rsd seed
    cache params = (w', Ok o) ->
  let model := _makemodel h cosmo0
                 (init_attrs h cosmo0 redshift mdef rsd seed params)
                 (get_halo_mass_key mdef) in
  attrs o = init_attrs h cosmo0 redshift mdef rsd seed params /\
  keys (param_dict (_model o)) = keys (param_dict model) /\
  forall n,
    n ∈ keys (param_dict model) ->
    dict_get (param_dict (_model o)) n = attrs o !! n /\ is_Some (attrs o !! n).
Proof.
  intros Hrun model.
  apply HODBase_init_state in Hrun as (d & Hd & Hpd & Hattrs & _).
  apply bind_params_Ok in Hd as (Hin & _ & Hkeys).
  rewrite Hpd, Hattrs. split_and!; [done|by apply Hkeys|done].
Qed.

Lemma construction_binds_parameters_witness :
  Demo.construct (Some 42%Z) [("logMmin", PyInt 25); ("alpha", PyInt 2)]
  = (world Demo.populated, Ok (self Demo.populated)) /\
  attrs (self Demo.populated)
  = init_attrs Demo.halos Demo.cosmology (PyInt 0) "vir" None (Some 42%Z)
      [("logMmin", PyInt 25); ("alpha", PyInt 2)] /\
  keys (param_dict (_model (self Demo.populated)))
  = keys (param_dict
      (Demo.makemodel Demo.halos Demo.cosmology
         (init_attrs Demo.halos Demo.cosmology (PyInt 0) "vir" None
            (Some 42%Z) [("logMmin", PyInt 25); ("alpha", PyInt 2)])
         (get_halo_mass_key "vir"))) /\
  forall n,
    n ∈ keys (param_dict
      (Demo.makemodel Demo.halos Demo.cosmology
         (init_attrs Demo.halos Demo.cosmology (PyInt 0) "vir" None
            (Some 42%Z) [("logMmin", PyInt 25); ("alpha", PyInt 2)])
         (get_halo_mass_key "vir"))) ->
    dict_get (param_dict (_model (self Demo.populated))) n
    = attrs (self Demo.populated) !! n /\
    is_Some (attrs (self Demo.populated) !! n).
Proof.
  assert (H : Demo.construct (Some 42%Z)
                [("logMmin", PyInt 25); ("alpha", PyInt 2)]
              = (world Demo.populated, Ok (self Demo.populated)))
    by (vm_compute; reflexivity).
  split; [exact H|].
  exact (construction_binds_parameters Demo.makemodel Demo.world0 Demo.halos
           Demo.cosmology (PyInt 0) "vir" None (Some 42%Z) false
           [("logMmin", PyInt 25); ("alpha", PyInt 2)] _ _ H).
Defined.

Lemma colnames_Table_of_array (a : StructArray) :
  colnames (Table_of_array a) = (fields a).*1.
Proof.
  unfold colnames, Table_of_array. apply list_eq. intros j.
  rewrite !list_lookup_fmap, list_lookup_imap.
  by destruct (fields a !! j).
Qed.

Lemma table_len_Table_of_array (a : StructArray) :
  fields a <> [] -> table_len (Table_of_array a) = array_len a.
Proof.
  unfold Table_of_array, array_len. destruct (fields a) as [|nd l]; [done|].
  intros _. simpl. by rewrite length_fmap.
Qed.

Lemma array_len_as_array (t : Table) : array_len (as_array t) = table_len t.
Proof. unfold array_len, as_array. simpl. by rewrite length_fmap, length_seq. Qed.

Lemma fields_as_array (t : Table) : (fields (as_array t)).*1 = colnames t.
Proof.
  unfold as_array, colnames. simpl. rewrite <- list_fmap_compose.
  by apply list_fmap_ext.
Qed.

(** A successful construction leaves, as the halo table of the root,
    the normalized table of the halos gathered from all ranks: it has
    the columns of the table the root came with and, when that table
    has a column, as many rows as the tables of all ranks together.
    The tables of the other ranks are the ones they came with. *)
Theorem construction_replaces_root_halo_table
    (_makemodel : UserSuppliedHaloCatalog -> list (string * pyval) ->
                  gmap string pyval -> string -> Model)
    (w : World) (h : UserSuppliedHaloCatalog) (cosmo0 : list (string * pyval))
    (redshift : pyval) (mdef : string) (rsd : option pyval) (seed : option Z)
    (cache : bool) (params : list (string * pyval)) (w' : World) (o : HODBase) :
  HODBase_init _makemodel w (IsHaloCatalog h) cosmo0 redshift mdef rsd seed
    cache params = (w', Ok o) ->
  halo_table (_halos o)
  = remove_object_dtypes
      (Table_of_array
         (GatherArray (as_array (halo_table h))
            (as_array <$> halo_tables_others h))) /\
  colnames (halo_table (_halos o)) = colnames (halo_table h) /\
  (halo_table h <> [] ->
   table_len (halo_table (_halos o))
   = sum_list (table_len <$> halo_table h :: halo_tables_others h)) /\
  halo_tables_others (_halos o) = halo_tables_others h.
Proof.
  intros Hrun.
  apply HODBase_init_state in Hrun as (d & _ & _ & _ & Hht & Hothers & _).
  rewrite Hht. split_and!; [done| | |done].
  - rewrite (proj1 (remove_object_dtypes_keeps_shape _)).
    rewrite colnames_Table_of_array. simpl. apply fields_as_array.
  - intros Hne.
    rewrite (proj1 (proj2 (remove_object_dtypes_keeps_shape _))).
    rewrite table_len_Table_of_array.
    + unfold array_len at 1, GatherArray, gather_rows. cbn [records].
      rewrite length_join.
      change (as_array (halo_table h) :: (as_array <$> halo_tables_others h))
        with (as_array <$> halo_table h :: halo_tables_others h).
      rewrite <- !list_fmap_compose. f_equal. apply list_fmap_ext.
      intros _ t _. apply array_len_as_array.
    + simpl. by destruct (halo_table h).
Qed.

Lemma construction_replaces_root_halo_table_witness :
  Demo.construct (Some 42%Z) [("logMmin", PyInt 25); ("alpha", PyInt 2)]
  = (world Demo.populated, Ok (self Demo.populated)) /\
  Demo.halos_rank0 <> [] /\
  colnames (halo_table (_halos (self Demo.populated)))
  = colnames Demo.halos_rank0 /\
  table_len (halo_table (_halos (self Demo.populated)))
  = sum_list (table_len <$> [Demo.halos_rank0; Demo.halos_rank1]) /\
  halo_tables_others (_halos (self Demo.populated)) = [Demo.halos_rank1].
Proof.
  assert (H : Demo.construct (Some 42%Z)
                [("logMmin", PyInt 25); ("alpha", PyInt 2)]
              = (world Demo.populated, Ok (self Demo.populated)))
    by (vm_compute; reflexivity).
  assert (Hne : Demo.halos_rank0 <> []) by discriminate.
  destruct (construction_replaces_root_halo_table Demo.makemodel Demo.world0
              Demo.halos Demo.cosmology (PyInt 0) "vir" None (Some 42%Z) false
              [("logMmin", PyInt 25); ("alpha", PyInt 2)] _ _ H)
    as (_ & Hcols & Hlen & Hothers).
  split; [exact H|]. split; [exact Hne|]. split; [exact Hcols|].
  split; [exact (Hlen Hne)|exact Hothers].
Defined.

(** ** More on [repopulate] *)

Lemma repopulate_outcomes seed params p p' r :
  repopulate seed params p = (p', r) ->
  keys (param_dict (_model (self p'))) = keys (param_dict (_model (self p))) /\
  exists l,
    events (world p') = events (world p) ++ l /\
    (EvGather ∉ l) /\
    ((r = Ok tt /\ EvScatter ∈ l /\
      generation (self p') = S (generation (self p)) /\
      param_dict (_model (self p'))
      = write_params (param_dict (_model (self p))) params) \/
     (exists e, r = Err e /\ (EvScatter ∉ l) /\
        _source (self p') = _source (self p) /\
        generation (self p') = generation (self p))).
Proof.
  intros Hrun.
  destruct (decide (Forall (fun kv => known_by p kv.1) params)) as [Hk|Hk].
  2:{ apply not_Forall_Exists in Hk; [|apply _].
      apply Exists_exists in Hk as ([k v] & Hin & Hn).
      destruct (first_unknown (known_by p) params)
        as (pre & name & x & post & -> & Hpre & Hbad).
      { exists k. split; [|done]. unfold keys.
        apply list_elem_of_fmap. by exists (k, v). }
      rewrite repopulate_unknown in Hrun by done.
      injection Hrun as <- <-. fields_cbn. split.
      { by apply keys_write_params. }
      exists []. rewrite app_nil_r. split_and!; [done|apply not_elem_of_nil|].
      right. eexists. split_and!; [done|apply not_elem_of_nil|done..]. }
  pose proof (keys_write_params _ _ Hk) as Hkeys.
  unfold repopulate in Hrun.
  unfold seq_prog at 1, update_self at 1, modify in Hrun.
  unfold seq_prog at 1 in Hrun.
  rewrite update_params_known in Hrun by done.
  unfold seq_prog at 1, gets in Hrun. fields_cbn in Hrun.
  destruct (mock (_model (self p))) as [mk|] eqn:Hmock.
  2:{ unfold raise in Hrun. injection Hrun as <- <-. fields_cbn.
      split; [done|]. exists []. rewrite app_nil_r.
      split_and!; [done|apply not_elem_of_nil|].
      right. eexists. split_and!; [done|apply not_elem_of_nil|done..]. }
  unfold seq_prog at 1, log at 1, modify in Hrun.
  unfold seq_prog at 1, lift, mock_populate, get_attr in Hrun.
  fields_cbn in Hrun. rewrite Hmock, lookup_insert_eq in Hrun.
  cbn [default id] in Hrun.
  destruct (transform _ _ _ _ _ _) as [g|e] eqn:Hg.
  2:{ cbn [bind] in Hrun. injection Hrun as <- <-. fields_cbn.
      split; [done|]. exists [EvTransform (mock_halo_table mk)].
      split_and!; [done|by intros [=]%list_elem_of_singleton|].
      right. eexists.
      split_and!; [done|by intros [=]%list_elem_of_singleton|done..]. }
  cbn [bind] in Hrun.
  unfold seq_prog at 1, update_self at 1, modify in Hrun.
  unfold seq_prog at 1, take_galaxy_table in Hrun.
  unfold seq_prog at 1, gets in Hrun. fields_cbn in Hrun.
  unfold seq_prog at 1, log at 1, modify in Hrun.
  unfold seq_prog at 1, update_self at 1, modify, ret in Hrun.
  fields_cbn in Hrun.
  unfold seq_prog at 1 in Hrun.
  destruct (_log_populated_stats _ _) as [[]|e].
  2:{ injection Hrun as <- <-. fields_cbn.
      split; [done|].
      exists [EvTransform (mock_halo_table mk); EvNormalize g].
      split_and!; [by rewrite <- app_assoc| |].
      { intros Hin. repeat (apply elem_of_cons in Hin as [[=]|Hin]).
        by apply elem_of_nil in Hin. }
      right. eexists. split_and!; [done| |done..].
      intros Hin. repeat (apply elem_of_cons in Hin as [[=]|Hin]).
      by apply elem_of_nil in Hin. }
  unfold seq_prog at 1, log, update_self, modify in Hrun.
  fields_cbn in Hrun.
  injection Hrun as <- <-. fields_cbn. split; [done|].
  exists [EvTransform (mock_halo_table mk); EvNormalize g; EvScatter].
  split_and!; [by rewrite <- !app_assoc| |].
  { intros Hin. repeat (apply elem_of_cons in Hin as [[=]|Hin]).
    by apply elem_of_nil in Hin. }
  left. split_and!; try done. do 2 right. left.
Qed.

Lemma write_params_keeps d l k :
  k ∉ keys l -> dict_get (write_params d l) k = dict_get d k.
Proof.
  revert d. induction l as [|[k0 v0] l IH]; intros d Hk; [done|].
  unfold keys in Hk. simpl in Hk. apply not_elem_of_cons in Hk as [Hne Hk].
  unfold write_params in *. simpl. rewrite IH by done.
  rewrite dict_get_dict_set. by rewrite decide_False.
Qed.

Lemma write_params_get d l k v :
  NoDup (keys l) -> (k, v) ∈ l -> dict_get (write_params d l) k = Some v.
Proof.
  revert d. induction l as [|[k0 v0] l IH]; intros d Hnd Hin.
  - by apply elem_of_nil in Hin.
  - unfold keys in Hnd. simpl in Hnd. apply NoDup_cons in Hnd as [Hk0 Hnd].
    apply elem_of_cons in Hin as [[= -> ->]|Hin].
    + change (write_params d ((k0, v0) :: l))
        with (write_params (dict_set d k0 v0) l).
      rewrite write_params_keeps by done.
      rewrite dict_get_dict_set. by rewrite decide_True.
    + by apply IH.
Qed.

(** [repopulate] writes the new parameters into the model only: after
    a successful call the parameter store holds each supplied value,
    while the attributes of the catalog are the ones from before the
    call, the seed apart. *)
Theorem repopulate_leaves_attrs_stale (seed : option Z)
    (params : list (string * pyval)) (p p' : Process) :
  repopulate seed params p = (p', Ok tt) ->
  NoDup (keys params) ->
  (forall k v,
      (k, v) ∈ params ->
      dict_get (param_dict (_model (self p'))) k = Some v) /\
  (forall k, k <> "seed" -> attrs (self p') !! k = attrs (self p) !! k) /\
  attrs (self p') !! "seed" = Some (seed_value seed).
Proof.
  intros Hrun Hnd.
  pose proof (repopulate_keeps_attrs seed params p) as Hattrs.
  rewrite Hrun in Hattrs. simpl in Hattrs.
  apply repopulate_outcomes in Hrun
    as (_ & l & _ & _ & [(_ & _ & _ & Hpd)|(e & [=] & _)]).
  split_and!.
  - intros k v Hin. rewrite Hpd. by apply write_params_get.
  - intros k Hk. rewrite Hattrs. by apply lookup_insert_ne.
  - rewrite Hattrs. apply lookup_insert_eq.
Qed.

Lemma repopulate_leaves_attrs_stale_witness :
  repopulate (Some 7%Z) [("logMmin", PyInt 15)] Demo.populated
  = (Demo.repopulated, Ok tt) /\
  NoDup (keys [("logMmin", PyInt 15)]) /\
  dict_get (param_dict (_model (self Demo.repopulated))) "logMmin"
  = Some (PyInt 15) /\
  attrs (self Demo.repopulated) !! "logMmin" = Some (PyInt 25) /\
  attrs (self Demo.repopulated) !! "seed" = Some (PyInt 7).
Proof.
  assert (H : repopulate (Some 7%Z) [("logMmin", PyInt 15)] Demo.populated
              = (Demo.repopulated, Ok tt))
    by (vm_compute; reflexivity).
  assert (Hnd : NoDup (keys [("logMmin", PyInt 15)])) by by_compute.
  destruct (repopulate_leaves_attrs_stale _ _ _ _ H Hnd) as (Hpd & Hold & Hseed).
  split; [exact H|]. split; [exact Hnd|]. split.
  { apply Hpd. left. }
  split; [|exact Hseed].
  rewrite Hold by discriminate. vm_compute. reflexivity.
Defined.

(** Whatever its outcome, [repopulate] leaves the parameter store with
    the names it had, in their order: it never adds a parameter and
    never drops one. *)
Theorem repopulate_keeps_parameter_names (seed : option Z)
    (params : list (string * pyval)) (p : Process) :
  keys (param_dict (_model (self (repopulate seed params p).1)))
  = keys (param_dict (_model (self p))).
Proof.
  destruct (repopulate seed params p) as [p' r] eqn:Hrun.
  by apply repopulate_outcomes in Hrun as [Hkeys _].
Qed.

(** A call to [repopulate] that fails, for whatever reason, has not
    reached the scatter: the shards installed before the call and the
    generation are still in place. *)
Theorem failed_repopulate_keeps_shards (seed : option Z)
    (params : list (string * pyval)) (p p' : Process) (e : exn) :
  repopulate seed params p = (p', Err e) ->
  _source (self p') = _source (self p) /\
  generation (self p') = generation (self p) /\
  exists l, events (world p') = events (world p) ++ l /\ (EvScatter ∉ l).
Proof.
  intros Hrun.
  apply repopulate_outcomes in Hrun
    as (_ & l & Hev & _ & [([=] & _)|(e' & _ & Hns & Hsrc & Hgen)]).
  split_and!; [done..|]. by exists l.
Qed.

Lemma failed_repopulate_keeps_shards_witness :
  repopulate None [("logMmin", PyStr "high")] Demo.populated
  = (Demo.failed, Err (TransformError "inconsistent mass definition")) /\
  _source (self Demo.failed) = _source (self Demo.populated) /\
  generation (self Demo.failed) = generation (self Demo.populated) /\
  exists l,
    events (world Demo.failed) = events (world Demo.populated) ++ l /\
    (EvScatter ∉ l).
Proof.
  assert (H : repopulate None [("logMmin", PyStr "high")] Demo.populated
              = (Demo.failed,
                 Err (TransformError "inconsistent mass definition")))
    by (vm_compute; reflexivity).
  split; [exact H|exact (failed_repopulate_keeps_shards _ _ _ _ _ H)].
Defined.

Lemma repopulate_keeps_use_cache seed params p :
  use_cache (self (repopulate seed params p).1) = use_cache (self p).
Proof.
  destruct (repopulate seed params p) as [p' r] eqn:Hrun. fields_cbn.
  destruct (decide (Forall (fun kv => known_by p kv.1) params)) as [Hk|Hk].
  2:{ apply not_Forall_Exists in Hk; [|apply _].
      apply Exists_exists in Hk as ([k v] & Hin & Hn).
      destruct (first_unknown (known_by p) params)
        as (pre & name & x & post & -> & Hpre & Hbad).
      { exists k. split; [|done]. unfold keys.
        apply list_elem_of_fmap. by exists (k, v). }
      rewrite repopulate_unknown in Hrun by done.
      by injection Hrun as <- <-. }
  unfold repopulate in Hrun.
  unfold seq_prog at 1, update_self at 1, modify in Hrun.
  unfold seq_prog at 1 in Hrun.
  rewrite update_params_known in Hrun by done.
  unfold seq_prog at 1, gets in Hrun. fields_cbn in Hrun.
  destruct (mock (_model (self p))) as [mk|] eqn:Hmock.
  2:{ unfold raise in Hrun. by injection Hrun as <- <-. }
  unfold seq_prog at 1, log at 1, modify in Hrun.
  unfold seq_prog at 1, lift, mock_populate, get_attr in Hrun.
  fields_cbn in Hrun. rewrite Hmock, lookup_insert_eq in Hrun.
  cbn [default id] in Hrun.
  destruct (transform _ _ _ _ _ _) as [g|e] eqn:Hg.
  2:{ cbn [bind] in Hrun. by injection Hrun as <- <-. }
  cbn [bind] in Hrun.
  unfold seq_prog at 1, update_self at 1, modify in Hrun.
  unfold seq_prog at 1, take_galaxy_table in Hrun.
  unfold seq_prog at 1, gets in Hrun. fields_cbn in Hrun.
  unfold seq_prog at 1, log at 1, modify in Hrun.
  unfold seq_prog at 1, update_self at 1, modify, ret in Hrun.
  fields_cbn in Hrun.
  unfold seq_prog at 1 in Hrun.
  destruct (_log_populated_stats _ _) as [[]|e].
  2:{ by injection Hrun as <- <-. }
  unfold seq_prog at 1, log, update_self, modify in Hrun.
  fields_cbn in Hrun.
  by injection Hrun as <- <-.
Qed.

(** Whatever its outcome, [repopulate] leaves the halos, the cosmology,
    the mass and radius keys, the cache flag and the module global as
    they were, and it never gathers. *)
Theorem repopulate_frame (seed : option Z) (params : list (string * pyval))
    (p : Process) :
  _halos (self (repopulate seed params p).1) = _halos (self p) /\
  cosmo (self (repopulate seed params p).1) = cosmo (self p) /\
  mass (self (repopulate seed params p).1) = mass (self p) /\
  radius (self (repopulate seed params p).1) = radius (self p) /\
  use_cache (self (repopulate seed params p).1) = use_cache (self p) /\
  default_haloprop_list_inherited_by_mock (world (repopulate seed params p).1)
  = default_haloprop_list_inherited_by_mock (world p) /\
  exists l,
    events (world (repopulate seed params p).1) = events (world p) ++ l /\
    (EvGather ∉ l).
Proof.
  assert (Hkeep : preserves
            (fun s => (_halos (self s), cosmo (self s), mass (self s),
                       radius (self s),
                       default_haloprop_list_inherited_by_mock (world s)))
            (repopulate seed params)).
  { unfold repopulate. preserves_tac. }
  specialize (Hkeep p). injection Hkeep as Hh Hc Hm Hr Hg.
  split_and!; try done; [apply repopulate_keeps_use_cache|].
  destruct (repopulate seed params p) as [p' r] eqn:Hrun.
  apply repopulate_outcomes in Hrun as (_ & l & Hev & Hng & _).
  by exists l.
Qed.

(** ** The statistics and the rows of a repopulation *)

Lemma repopulate_after_transform seed params p mk g :
  Forall (fun kv => known_by p kv.1) params ->
  mock (_model (self p)) = Some mk ->
  transform (_model (self p)) (mock_halo_table mk)
    (write_params (param_dict (_model (self p))) params)
    (mass (self p)) 1 (seed_value seed) = Ok g ->
  exists p',
    repopulate seed params p
    = (p', _log_populated_stats (self p) (as_array (remove_object_dtypes g))) /\
    (_log_populated_stats (self p) (as_array (remove_object_dtypes g)) = Ok tt ->
     _source (self p')
     = ScatterArray (as_array (remove_object_dtypes g))
         (comm_size (_halos (self p)))).
Proof.
  intros Hk Hmock Hg. unfold repopulate.
  unfold seq_prog at 1, update_self at 1, modify.
  unfold seq_prog at 1. rewrite update_params_known by done.
  unfold seq_prog at 1, gets. fields_cbn. rewrite Hmock.
  unfold seq_prog at 1, log at 1, modify.
  unfold seq_prog at 1, lift, mock_populate, get_attr.
  fields_cbn. rewrite Hmock, lookup_insert_eq. cbn [default id].
  rewrite Hg. cbn [bind].
  unfold seq_prog at 1, update_self at 1, modify.
  unfold seq_prog at 1, take_galaxy_table.
  unfold seq_prog at 1, gets. fields_cbn.
  unfold seq_prog at 1, log at 1, modify.
  unfold seq_prog at 1, update_self at 1, modify, ret. fields_cbn.
  unfold seq_prog at 1.
  unfold _log_populated_stats. fields_cbn.
  destruct (if decide (0 < array_len (as_array (remove_object_dtypes g)))
            then _ else _) as [[]|e].
  - unfold seq_prog at 1, log, update_self, modify. fields_cbn.
    eexists. split; [done|]. intros _. by fields_cbn.
  - eexists. split; [done|]. intros [=].
Qed.

Lemma column_of_missing (a : StructArray) (n : string) :
  n ∉ (fields a).*1 -> column_of a n = Err (MissingColumnError n).
Proof.
  intros Hn. unfold column_of.
  destruct (list_find _ _) as [[j nd]|] eqn:Hf; [|done].
  apply list_find_Some in Hf as (Hj & <- & _).
  destruct Hn. apply list_elem_of_fmap. exists nd. split; [done|].
  by apply list_elem_of_lookup_2 in Hj.
Qed.

Lemma column_of_as_array (t : Table) (n : string) (c : Column) :
  dict_get t n = Some c ->
  exists c', column_of (as_array t) n = Ok c' /\ col_dtype c' = col_dtype c.
Proof.
  intros Hc. unfold column_of, as_array. cbn [fields records].
  generalize (table_len t) as len.
  assert (Hfind : exists j,
             list_find (fun nd : string * dtype => nd.1 = n)
               ((fun nc : string * Column => (nc.1, col_dtype nc.2)) <$> t)
             = Some (j, (n, col_dtype c))).
  { induction t as [|[k c0] t IH]; [done|]. simpl in *.
    case_decide as Hk.
    - injection Hc as ->. subst k. by exists 0.
    - destruct (IH Hc) as [j Hj]. exists (S j).
      unfold fmap in Hj. by rewrite Hj. }
  destruct Hfind as [j ->]. intros len. by eexists.
Qed.

Lemma dict_get_normalized (t : Table) (n : string) :
  dict_get ((fun nc : string * Column => (nc.1, normalize_column nc.2)) <$> t) n
  = normalize_column <$> dict_get t n.
Proof.
  induction t as [|[k c] t IH]; [done|]. simpl. by case_decide.
Qed.

Lemma normalize_column_number (c : Column) :
  col_dtype (normalize_column c) ∈ [DInt; DFloat]
  <-> col_dtype c ∈ [DInt; DFloat].
Proof.
  unfold normalize_column. case_decide as Hc; [|done].
  rewrite Hc. simpl. rewrite !elem_of_cons, !elem_of_nil.
  intuition congruence.
Qed.

Lemma count_equal_text (c : Column) (s : string) :
  col_dtype c ∉ [DInt; DFloat] -> exists n, count_equal c s = Ok n.
Proof.
  unfold count_equal.
  destruct (col_dtype c); intros H; try (by eexists); exfalso; revert H;
    rewrite ?not_elem_of_cons; intuition congruence.
Qed.

Lemma numpy_log10_outcome (c : Column) :
  (col_dtype c ∈ [DInt; DFloat] -> numpy_log10 c = Ok tt) /\
  (col_dtype c ∉ [DInt; DFloat] -> numpy_log10 c = Err TypeError).
Proof.
  unfold numpy_log10.
  destruct (col_dtype c); split; intros H; try done; exfalso; revert H;
    rewrite ?not_elem_of_cons, ?elem_of_cons, ?elem_of_nil;
    intuition congruence.
Qed.

Lemma stats_columns (o : HODBase) (g : Table) :
  NoDup (colnames g) ->
  let data := as_array (remove_object_dtypes g) in
  (table_len g = 0 -> _log_populated_stats o data = Ok tt) /\
  (0 < table_len g -> "gal_type" ∉ colnames g ->
   _log_populated_stats o data = Err (MissingColumnError "gal_type")) /\
  (forall cg,
      0 < table_len g ->
      dict_get g "gal_type" = Some cg ->
      col_dtype cg ∉ [DInt; DFloat] ->
      (mass o ∉ colnames g ->
       _log_populated_stats o data = Err (MissingColumnError (mass o))) /\
      (forall cm,
          dict_get g (mass o) = Some cm ->
          (col_dtype cm ∈ [DInt; DFloat] ->
           _log_populated_stats o data = Ok tt) /\
          (col_dtype cm ∉ [DInt; DFloat] ->
           _log_populated_stats o data = Err TypeError))).
Proof.
  intros Hnd data.
  assert (Hlen : array_len data = table_len g).
  { unfold data. rewrite array_len_as_array.
    apply remove_object_dtypes_keeps_shape. }
  assert (Hcols : (fields data).*1 = colnames g).
  { unfold data. rewrite fields_as_array.
    apply remove_object_dtypes_keeps_shape. }
  assert (Hcol : forall n c,
             dict_get g n = Some c ->
             exists c', column_of data n = Ok c' /\
                        col_dtype c' = col_dtype (normalize_column c)).
  { intros n c Hc. apply column_of_as_array.
    rewrite remove_object_dtypes_columns by done.
    by rewrite dict_get_normalized, Hc. }
  unfold _log_populated_stats. rewrite Hlen. split_and!.
  - intros ->. by rewrite decide_False by lia.
  - intros Hpos Hno. rewrite decide_True by done.
    rewrite column_of_missing; [done|by rewrite Hcols].
  - intros cg Hpos Hgal Htext. rewrite decide_True by done.
    destruct (Hcol _ _ Hgal) as (cg' & -> & Hdt). cbn [bind].
    destruct (count_equal_text cg' "satellites") as [k ->].
    { rewrite Hdt. by rewrite normalize_column_number. }
    cbn [bind]. split.
    + intros Hno. rewrite column_of_missing; [done|by rewrite Hcols].
    + intros cm Hmass.
      destruct (Hcol _ _ Hmass) as (cm' & -> & Hdm). cbn [bind].
      destruct (numpy_log10_outcome cm') as [Hnum Htxt].
      rewrite Hdm, normalize_column_number in Hnum, Htxt. by split.
Qed.

(** Once the transform has returned its galaxies, under column names
    that are all different, what is left to fail in [repopulate] is the
    logging of the statistics.  It is skipped when there is no galaxy.
    Otherwise the call fails with [MissingColumnError] when [gal_type]
    is absent; with [gal_type] a column of texts or objects, it fails
    with [MissingColumnError] when the mass column is absent, with
    [TypeError] when the mass column holds texts or objects, of which
    numpy takes no logarithm, and it succeeds when the mass column
    holds numbers. *)
Theorem statistics_gate_repopulate (seed : option Z)
    (params : list (string * pyval)) (p : Process) (mk : Mock) (g : Table) :
  Forall (fun kv => known_by p kv.1) params ->
  mock (_model (self p)) = Some mk ->
  transform (_model (self p)) (mock_halo_table mk)
    (write_params (param_dict (_model (self p))) params)
    (mass (self p)) 1 (seed_value seed) = Ok g ->
  NoDup (colnames g) ->
  (table_len g = 0 -> (repopulate seed params p).2 = Ok tt) /\
  (0 < table_len g -> "gal_type" ∉ colnames g ->
   (repopulate seed params p).2 = Err (MissingColumnError "gal_type")) /\
  (forall cg,
      0 < table_len g ->
      dict_get g "gal_type" = Some cg ->
      col_dtype cg ∉ [DInt; DFloat] ->
      (mass (self p) ∉ colnames g ->
       (repopulate seed params p).2
       = Err (MissingColumnError (mass (self p)))) /\
      (forall cm,
          dict_get g (mass (self p)) = Some cm ->
          (col_dtype cm ∈ [DInt; DFloat] ->
           (repopulate seed params p).2 = Ok tt) /\
          (col_dtype cm ∉ [DInt; DFloat] ->
           (repopulate seed params p).2 = Err TypeError))).
Proof.
  intros Hk Hmock Hg Hnd.
  destruct (repopulate_after_transform _ _ _ _ _ Hk Hmock Hg) as (p' & -> & _).
  by apply stats_columns.
Qed.

Lemma statistics_gate_repopulate_witness :
  Forall (fun kv => known_by Demo.populated_spelled kv.1) [("alpha", PyInt 0)] /\
  mock (_model (self Demo.populated_spelled))
  = Some {| mock_halo_table := halo_table (_halos (self Demo.populated_spelled));
            galaxy_table := None |} /\
  transform (_model (self Demo.populated_spelled))
    (halo_table (_halos (self Demo.populated_spelled)))
    (write_params (param_dict (_model (self Demo.populated_spelled)))
       [("alpha", PyInt 0)])
    (mass (self Demo.populated_spelled)) 1 (seed_value None)
  = Ok Demo.spelled_galaxies /\
  NoDup (colnames Demo.spelled_galaxies) /\
  0 < table_len Demo.spelled_galaxies /\
  dict_get Demo.spelled_galaxies "gal_type"
  = Some (Demo.objs [ObjStr "centrals"; ObjStr "centrals"; ObjStr "centrals"]) /\
  dict_get Demo.spelled_galaxies (mass (self Demo.populated_spelled))
  = Some (Demo.objs [ObjStr "1e12"; ObjStr "1e12"; ObjStr "1e12"]) /\
  (repopulate None [("alpha", PyInt 0)] Demo.populated_spelled).2
  = Err TypeError.
Proof.
  assert (H1 : Forall (fun kv => known_by Demo.populated_spelled kv.1)
                 [("alpha", PyInt 0)]).
  { apply Forall_cons. split; [|done]. apply dict_in_true.
    vm_compute. reflexivity. }
  assert (H2 : mock (_model (self Demo.populated_spelled))
               = Some {| mock_halo_table :=
                           halo_table (_halos (self Demo.populated_spelled));
                         galaxy_table := None |})
    by (vm_compute; reflexivity).
  assert (H3 : transform (_model (self Demo.populated_spelled))
                 (halo_table (_halos (self Demo.populated_spelled)))
                 (write_params
                    (param_dict (_model (self Demo.populated_spelled)))
                    [("alpha", PyInt 0)])
                 (mass (self Demo.populated_spelled)) 1 (seed_value None)
               = Ok Demo.spelled_galaxies)
    by (vm_compute; reflexivity).
  assert (H4 : NoDup (colnames Demo.spelled_galaxies)) by by_compute.
  assert (H5 : 0 < table_len Demo.spelled_galaxies) by by_compute.
  assert (H6 : dict_get Demo.spelled_galaxies "gal_type"
               = Some (Demo.objs [ObjStr "centrals"; ObjStr "centrals";
                                  ObjStr "centrals"]))
    by (vm_compute; reflexivity).
  assert (H7 : dict_get Demo.spelled_galaxies
                 (mass (self Demo.populated_spelled))
               = Some (Demo.objs [ObjStr "1e12"; ObjStr "1e12";
                                  ObjStr "1e12"]))
    by (vm_compute; reflexivity).
  assert (H8 : col_dtype (Demo.objs [ObjStr "centrals"; ObjStr "centrals";
                                     ObjStr "centrals"]) ∉ [DInt; DFloat])
    by by_compute.
  assert (H9 : col_dtype (Demo.objs [ObjStr "1e12"; ObjStr "1e12";
                                     ObjStr "1e12"]) ∉ [DInt; DFloat])
    by by_compute.
  split; [exact H1|]. split; [exact H2|]. split; [exact H3|].
  split; [exact H4|]. split; [exact H5|]. split; [exact H6|].
  split; [exact H7|].
  destruct (statistics_gate_repopulate None [("alpha", PyInt 0)]
              Demo.populated_spelled _ _ H1 H2 H3 H4) as (_ & _ & Hgate).
  destruct (Hgate _ H5 H6 H8) as [_ Hmass].
  exact (proj2 (Hmass _ H7) H9).
Defined.

(** A successful repopulation hands every rank a shard with the
    columns of the galaxy table the transform returned, and the shards
    hold together as many rows as that table: no galaxy is lost and
    none is counted twice. *)
Theorem repopulate_keeps_every_row (seed : option Z)
    (params : list (string * pyval)) (p p' : Process) :
  repopulate seed params p = (p', Ok tt) ->
  exists mk g,
    mock (_model (self p)) = Some mk /\
    transform (_model (self p)) (mock_halo_table mk)
      (write_params (param_dict (_model (self p))) params)
      (mass (self p)) 1 (seed_value seed) = Ok g /\
    length (_source (self p')) = comm_size (_halos (self p)) /\
    csize (self p') = table_len g /\
    Forall (fun s => (fields s).*1 = colnames g) (_source (self p')).
Proof.
  intros Hrun.
  apply repopulate_success in Hrun as (mk & g & Hmock & Hg & Hsrc & _).
  exists mk, g. split_and!; try done.
  - rewrite Hsrc. unfold ScatterArray, scatter_rows, shard_sizes.
    by rewrite length_fmap, length_reshape, length_fmap, length_seq.
  - unfold csize. rewrite Hsrc, ScatterArray_lengths.
    rewrite sum_shard_sizes by (unfold comm_size; lia).
    rewrite array_len_as_array. apply remove_object_dtypes_keeps_shape.
  - rewrite Hsrc. unfold ScatterArray. apply Forall_fmap, Forall_forall.
    intros rows _. unfold compose. cbn [fields]. rewrite fields_as_array.
    apply remove_object_dtypes_keeps_shape.
Qed.

Lemma repopulate_keeps_every_row_witness :
  repopulate (Some 7%Z) [("logMmin", PyInt 15)] Demo.populated
  = (Demo.repopulated, Ok tt) /\
  exists mk g,
    mock (_model (self Demo.populated)) = Some mk /\
    transform (_model (self Demo.populated)) (mock_halo_table mk)
      (write_params (param_dict (_model (self Demo.populated)))
         [("logMmin", PyInt 15)])
      (mass (self Demo.populated)) 1 (seed_value (Some 7%Z)) = Ok g /\
    length (_source (self Demo.repopulated))
    = comm_size (_halos (self Demo.populated)) /\
    csize (self Demo.repopulated) = table_len g /\
    Forall (fun s => (fields s).*1 = colnames g)
      (_source (self Demo.repopulated)).
Proof.
  assert (H : repopulate (Some 7%Z) [("logMmin", PyInt 15)] Demo.populated
              = (Demo.repopulated, Ok tt))
    by (vm_compute; reflexivity).
  split; [exact H|exact (repopulate_keeps_every_row _ _ _ _ H)].
Defined.

(** ** The constructor of [HOD] *)

Lemma dict_update_lookup_notin (m : gmap string pyval) l k :
  k ∉ keys l -> dict_update m l !! k = m !! k.
Proof.
  unfold dict_update, keys. revert m.
  induction l as [|[k' v] l IH]; intros m Hk; [done|]. simpl in *.
  apply not_elem_of_cons in Hk as [Hne Hk].
  rewrite IH by done. by rewrite lookup_insert_ne.
Qed.

Lemma dict_update_lookup_in (m : gmap string pyval) l k v :
  NoDup (keys l) -> (k, v) ∈ l -> dict_update m l !! k = Some v.
Proof.
  unfold dict_update, keys. revert m.
  induction l as [|[k' v'] l IH]; intros m Hnd Hin.
  - by apply elem_of_nil in Hin.
  - simpl in *. apply NoDup_cons in Hnd as [Hk' Hnd].
    apply elem_of_cons in Hin as [[= -> ->]|Hin].
    + fold (dict_update (<[k':=v']> m) l).
      rewrite dict_update_lookup_notin by done. apply lookup_insert_eq.
    + by apply IH.
Qed.

Lemma HOD_params_keys a b c d e :
  keys (HOD_params a b c d e)
  = ["logMmin"; "sigma_logM"; "alpha"; "logM0"; "logM1"].
Proof. reflexivity. Qed.

Lemma HOD_params_not_cosmo a b c d e cosmo n :
  n ∈ keys (HOD_params a b c d e) -> n ∉ cosmo_attrs cosmo.
Proof.
  rewrite HOD_params_keys. intros Hn Hc.
  apply list_elem_of_fmap in Hc as ([k v] & -> & _). simpl in Hn.
  repeat (apply elem_of_cons in Hn as [Hn|Hn]; [discriminate Hn|]).
  by apply elem_of_nil in Hn.
Qed.

Lemma HOD_attrs_lookup h cosmo redshift mdef rsd seed a b c d e n v :
  (n, v) ∈ HOD_params a b c d e ->
  init_attrs h cosmo redshift mdef rsd seed (HOD_params a b c d e) !! n
  = Some v.
Proof.
  intros Hin. unfold init_attrs. cbv zeta.
  rewrite dict_update_lookup_notin.
  - apply dict_update_lookup_in; [|done].
    rewrite HOD_params_keys. by_compute.
  - unfold keys. rewrite <- list_fmap_compose.
    apply (HOD_params_not_cosmo a b c d e cosmo).
    apply list_elem_of_fmap. by exists (n, v).
Qed.

Lemma _makesource_gathers (p : Process) :
  exists l,
    events (world (_makesource p).1) = events (world p) ++ EvGather :: l.
Proof.
  unfold _makesource.
  unfold seq_prog at 1, gets. cbv zeta.
  unfold seq_prog at 1, log at 1, modify.
  unfold seq_prog at 1, log at 1, modify.
  unfold seq_prog at 1, update_self at 1, modify.
  unfold seq_prog at 1, gets. fields_cbn.
  unfold seq_prog at 1, log at 1, modify.
  unfold seq_prog at 1, lift, populate_mock, get_attr.
  fields_cbn.
  destruct (transform _ _ _ _ _ _) as [g|e]; cbn [bind].
  2:{ fields_cbn. rewrite <- !app_assoc. by eexists. }
  unfold seq_prog at 1, update_self at 1, modify.
  unfold seq_prog at 1, take_galaxy_table.
  unfold seq_prog at 1, gets. fields_cbn.
  unfold seq_prog at 1, log at 1, modify.
  unfold seq_prog at 1, update_self at 1, modify, ret.
  fields_cbn.
  unfold seq_prog at 1.
  destruct (_log_populated_stats _ _) as [[]|e].
  2:{ fields_cbn. rewrite <- !app_assoc. by eexists. }
  unfold seq_prog at 1, log, modify.
  fields_cbn. rewrite <- !app_assoc. by eexists.
Qed.

Lemma bind_params_found names (a : gmap string pyval) d :
  Forall (fun n => is_Some (a !! n)) names ->
  exists d', bind_params names a d = Ok d'.
Proof.
  revert d. induction names as [|n names IH]; intros d Hall; simpl.
  - by exists d.
  - apply Forall_cons in Hall as [[v ->] Hall]. by apply IH.
Qed.



(** With a model that declares no other parameters than the five of
    [HOD], as the model of Zheng et al. does, the constructor of [HOD]
    always gets through the parameter loop: every declared parameter is
    found in the attributes, and the halos are gathered. *)
Theorem HOD_init_reaches_gather (HodModelFactory : HodComponents -> Model)
    (w : World) (h : UserSuppliedHaloCatalog) (cosmo0 : list (string * pyval))
    (redshift : pyval) (mdef : string)
    (logMmin sigma_logM alpha logM0 logM1 : option pyval)
    (rsd : option pyval) (seed : option Z) (cache : bool) :
  (forall c, keys (param_dict (HodModelFactory c))
             ⊆ ["logMmin"; "sigma_logM"; "alpha"; "logM0"; "logM1"]) ->
  exists l,
    events (HOD_init HodModelFactory w (IsHaloCatalog h) cosmo0 redshift mdef
              logMmin sigma_logM alpha logM0 logM1 rsd seed cache).1
    = events w ++ EvGather :: l.
Proof.
  intros Hdecl. unfold HOD_init, HODBase_init. cbv zeta.
  set (attrs0 := init_attrs _ _ _ _ _ _ _).
  set (model := HOD_makemodel _ _ _ _ _).
  destruct (bind_params_found (keys (param_dict model)) attrs0
              (param_dict model)) as [d ->].
  { apply Forall_forall. intros n Hn. apply Hdecl in Hn.
    rewrite <- (HOD_params_keys logMmin sigma_logM alpha logM0 logM1) in Hn.
    apply list_elem_of_fmap in Hn as ([n' v] & -> & Hin).
    unfold attrs0. by erewrite HOD_attrs_lookup. }
  match goal with
  | |- context [_makesource ?p0] =>
      destruct (_makesource_gathers p0) as [l Hl]; revert Hl
  end.
  destruct (_makesource _) as [p1 [data|e]]; fields_cbn; intros Hl.
  - exists l. by case_decide.
  - by exists l.
Qed.

Lemma HOD_init_reaches_gather_witness :
  (forall c, keys (param_dict (Demo.zheng07 c))
             ⊆ ["logMmin"; "sigma_logM"; "alpha"; "logM0"; "logM1"]) /\
  exists l,
    events (HOD_init Demo.zheng07 Demo.world0 (IsHaloCatalog Demo.halos)
              Demo.cosmology (PyInt 0) "vir" (Some (PyStr "high")) None None
              None None None None false).1
    = events Demo.world0 ++ EvGather :: l.
Proof.
  assert (H : forall c, keys (param_dict (Demo.zheng07 c))
                        ⊆ ["logMmin"; "sigma_logM"; "alpha"; "logM0"; "logM1"]).
  { intros c n Hn. simpl in Hn.
    rewrite !elem_of_cons, elem_of_nil in Hn.
    rewrite !elem_of_cons, elem_of_nil. tauto. }
  split; [exact H|].
  exact (HOD_init_reaches_gather Demo.zheng07 Demo.world0 Demo.halos
           Demo.cosmology (PyInt 0) "vir" (Some (PyStr "high")) None None None
           None None None false H).
Defined.
